(** * rhythmic_form: the submission pipeline of rhythmic_gymnastics_form_app.js

    A shallow embedding of the server-side helpers of the form application:
    [sanitizeSubmission], [fileSafe], [ensureWorkbook], [appendToExcel],
    [emailDocx], [buildDocx] and the three routes that call them.

    Conventions of the embedding.
    - A JavaScript string is the list of its UTF-16 code units ([jsstring]).
      String constants of the source are written as UTF-8 literals and
      decoded by [utf16].
    - A request body is a JSON value ([value]); a thrown [TypeError] is the
      [Throw] case of [result].
    - The clock ([dayjs()]) is an explicit [DateTime] argument.
    - The spreadsheet file is absent, a stored [Workbook] or a file that
      cannot be read as one; what is stored has neither the keys of the
      columns nor the rows without a value. The mail transport is a
      function that takes or rejects a message, with the list of the
      messages it has taken; the rendered document is the tree given to
      the docx [Packer].
    - The script of the page [getHtml] serves is embedded in the module
      [Page]. *)

From Stdlib Require Import List NArith Bool Ascii String Lia DecimalString.
From Stdlib Require DecimalPos.
Import ListNotations.

Set Warnings "-register-all,-abstract-large-number".

Open Scope N_scope.
Open Scope list_scope.

(* ===================================================================== *)
(** ** JavaScript strings *)
(* ===================================================================== *)

Module JsString.

(** UTF-16 code units. *)
Definition jsstring := list N.

(** Decoder of a UTF-8 literal into UTF-16 code units; it only serves to
    write the constants of the source in readable form. *)
Definition cont (a : ascii) : N := N.land (N_of_ascii a) 63.

Definition surrogates (cp : N) : jsstring :=
  if cp <? 65536 then [cp]
  else [55296 + N.shiftr (cp - 65536) 10; 56320 + N.land (cp - 65536) 1023].

Fixpoint utf16 (s : string) : jsstring :=
  match s with
  | EmptyString => []
  | String a t =>
      let b := N_of_ascii a in
      if b <? 128 then b :: utf16 t
      else if b <? 224 then
        match t with
        | String a1 t1 => (N.shiftl (N.land b 31) 6 + cont a1) :: utf16 t1
        | _ => [65533]
        end
      else if b <? 240 then
        match t with
        | String a1 (String a2 t2) =>
            (N.shiftl (N.land b 15) 12 + N.shiftl (cont a1) 6 + cont a2)
              :: utf16 t2
        | _ => [65533]
        end
      else
        match t with
        | String a1 (String a2 (String a3 t3)) =>
            surrogates (N.shiftl (N.land b 7) 18 + N.shiftl (cont a1) 12
                        + N.shiftl (cont a2) 6 + cont a3) ++ utf16 t3
        | _ => [65533]
        end
  end.

(** [a === b] on strings. *)
Fixpoint eqb (a b : jsstring) : bool :=
  match a, b with
  | [], [] => true
  | x :: a', y :: b' => (x =? y) && eqb a' b'
  | _, _ => false
  end.

(** [s || d] on strings: the empty string is the only falsy string. *)
Definition orElse (s d : jsstring) : jsstring :=
  match s with
  | [] => d
  | _ => s
  end.

(** [Array.prototype.join] on strings. *)
Fixpoint join (sep : jsstring) (l : list jsstring) : jsstring :=
  match l with
  | [] => []
  | [x] => x
  | x :: rest => x ++ sep ++ join sep rest
  end.

(** [String(n)] for a non-negative integer. *)
Fixpoint digits (u : Decimal.uint) : jsstring :=
  match u with
  | Decimal.Nil => []
  | Decimal.D0 r => 48 :: digits r
  | Decimal.D1 r => 49 :: digits r
  | Decimal.D2 r => 50 :: digits r
  | Decimal.D3 r => 51 :: digits r
  | Decimal.D4 r => 52 :: digits r
  | Decimal.D5 r => 53 :: digits r
  | Decimal.D6 r => 54 :: digits r
  | Decimal.D7 r => 55 :: digits r
  | Decimal.D8 r => 56 :: digits r
  | Decimal.D9 r => 57 :: digits r
  end.

Definition ofN (n : N) : jsstring := digits (N.to_uint n).

(** [s.padStart(len, '0')]. *)
Definition padStart0 (len : nat) (s : jsstring) : jsstring :=
  repeat 48 (len - List.length s) ++ s.

(** The class [\s] of regular expressions, which is also the set of code
    units removed by [String.prototype.trim]: WhiteSpace and
    LineTerminator. *)
Definition isSpace (c : N) : bool :=
  ((9 <=? c) && (c <=? 13))
  || (c =? 32) || (c =? 160) || (c =? 5760)
  || ((8192 <=? c) && (c <=? 8202))
  || (c =? 8232) || (c =? 8233) || (c =? 8239) || (c =? 8287)
  || (c =? 12288) || (c =? 65279).

Fixpoint dropWhile (f : N -> bool) (s : jsstring) : jsstring :=
  match s with
  | [] => []
  | c :: t => if f c then dropWhile f t else s
  end.

Definition trimStart (s : jsstring) : jsstring := dropWhile isSpace s.

Fixpoint trimEnd (s : jsstring) : jsstring :=
  match s with
  | [] => []
  | c :: t =>
      match trimEnd t with
      | [] => if isSpace c then [] else [c]
      | r => c :: r
      end
  end.

(** [s.trim()]. *)
Definition trim (s : jsstring) : jsstring := trimEnd (trimStart s).

(** [s.replace(/[cls]+/g, rep)]: scanning from the left, every maximal run
    of code units of the class is one match and is replaced by [rep];
    [afterMatch] is the scanner inside a match. *)
Section Replace.
Variable cls : N -> bool.
Variable rep : jsstring.

Fixpoint replaceRuns (s : jsstring) : jsstring :=
  match s with
  | [] => []
  | c :: t => if cls c then rep ++ afterMatch t else c :: replaceRuns t
  end
with afterMatch (s : jsstring) : jsstring :=
  match s with
  | [] => []
  | c :: t => if cls c then afterMatch t else c :: replaceRuns t
  end.
End Replace.

End JsString.
Import JsString.

(** The character class of [fileSafe]'s first pattern: backslash, slash,
    colon, asterisk, question mark, double quote, less-than, greater-than,
    vertical bar, line feed and carriage return. *)
Definition isUnsafe (c : N) : bool :=
  (c =? 92) || (c =? 47) || (c =? 58) || (c =? 42) || (c =? 63)
  || (c =? 34) || (c =? 60) || (c =? 62) || (c =? 124)
  || (c =? 10) || (c =? 13).

Definition fileSafe (name : jsstring) : jsstring :=
  trim (replaceRuns isSpace (utf16 " ")
          (replaceRuns isUnsafe (utf16 "_") name)).

(* ===================================================================== *)
(** ** Exceptions *)
(* ===================================================================== *)

(** What a call can throw: a [TypeError] of the language (reading a
    property of [null] or [undefined], converting an object without a
    usable [toString] to a string), a [URIError] of [encodeURIComponent],
    or a failure of the file layer or of the mail transport. *)
Inductive Error : Type :=
| TypeError
| URIError
| IOError.

Inductive result (A : Type) : Type :=
| Ok (a : A)
| Throw (e : Error).
Arguments Ok {A} a.
Arguments Throw {A} e.

Definition bind {A B : Type} (c : result A) (k : A -> result B) : result B :=
  match c with
  | Ok a => k a
  | Throw e => Throw e
  end.

Notation "x <- c ;; k" := (bind c (fun x => k))
  (at level 61, c at next level, right associativity).

(* ===================================================================== *)
(** ** [encodeURIComponent] *)
(* ===================================================================== *)

(** The characters [encodeURIComponent] leaves as they are: letters,
    digits and - _ . ! ~ * ' ( ). *)
Definition isUnreserved (c : N) : bool :=
  ((65 <=? c) && (c <=? 90)) || ((97 <=? c) && (c <=? 122))
  || ((48 <=? c) && (c <=? 57))
  || (c =? 45) || (c =? 95) || (c =? 46) || (c =? 33) || (c =? 126)
  || (c =? 42) || (c =? 39) || (c =? 40) || (c =? 41).

Definition isHighSurrogate (c : N) : bool := (55296 <=? c) && (c <=? 56319).
Definition isLowSurrogate (c : N) : bool := (56320 <=? c) && (c <=? 57343).

Definition hexDigit (d : N) : N := if d <? 10 then 48 + d else 55 + d.

(** [%XX] for one octet. *)
Definition percent (octet : N) : jsstring :=
  [37; hexDigit (octet / 16); hexDigit (octet mod 16)].

(** The escaped UTF-8 octets of a code point. *)
Definition percentUtf8 (cp : N) : jsstring :=
  if cp <? 128 then percent cp
  else if cp <? 2048 then
    percent (192 + cp / 64) ++ percent (128 + cp mod 64)
  else if cp <? 65536 then
    percent (224 + cp / 4096) ++ percent (128 + (cp / 64) mod 64)
    ++ percent (128 + cp mod 64)
  else
    percent (240 + cp / 262144) ++ percent (128 + (cp / 4096) mod 64)
    ++ percent (128 + (cp / 64) mod 64) ++ percent (128 + cp mod 64).

(** [encodeURIComponent(s)]: throws a [URIError] on a surrogate that is
    not half of a pair. *)
Fixpoint encodeURIComponent (s : jsstring) : result jsstring :=
  match s with
  | [] => Ok []
  | c :: t =>
      if isUnreserved c then
        r <- encodeURIComponent t ;; Ok (c :: r)
      else if isLowSurrogate c then Throw URIError
      else if isHighSurrogate c then
        match t with
        | l :: t' =>
            if isLowSurrogate l then
              r <- encodeURIComponent t' ;;
              Ok (percentUtf8 ((c - 55296) * 1024 + (l - 56320) + 65536) ++ r)
            else Throw URIError
        | [] => Throw URIError
        end
      else
        r <- encodeURIComponent t ;; Ok (percentUtf8 c ++ r)
  end.

(* ===================================================================== *)
(** ** Clock *)
(* ===================================================================== *)

(** A reading of [dayjs()]: calendar fields of the local time, [month]
    counted from 1. *)
Record DateTime : Type := mkDateTime {
  year : N;
  month : N;
  day : N;
  hour : N;
  minute : N;
  second : N
}.

Definition pad (len : nat) (n : N) : jsstring := padStart0 len (ofN n).

(** [dayjs().format('DD.MM.YYYY')] *)
Definition format_DD_MM_YYYY (t : DateTime) : jsstring :=
  pad 2 (day t) ++ utf16 "." ++ pad 2 (month t) ++ utf16 "." ++ pad 4 (year t).

(** [dayjs().format('YYYY-MM-DD HH:mm:ss')] *)
Definition format_timestamp (t : DateTime) : jsstring :=
  pad 4 (year t) ++ utf16 "-" ++ pad 2 (month t) ++ utf16 "-" ++ pad 2 (day t)
  ++ utf16 " " ++ pad 2 (hour t) ++ utf16 ":" ++ pad 2 (minute t)
  ++ utf16 ":" ++ pad 2 (second t).

(* ===================================================================== *)
(** ** The canonical record *)
(* ===================================================================== *)

Record Participant : Type := mkParticipant {
  idx : N;
  name : jsstring;
  birthYear : jsstring;
  hasRank : jsstring;
  performingRank : jsstring;
  medicalVisa : jsstring
}.

Record Submission : Type := mkSubmission {
  date : jsstring;
  city : jsstring;
  club : jsstring;
  contacts : jsstring;
  coach : jsstring;
  judge : jsstring;
  judgeCategory : jsstring;
  participants : list Participant
}.

(* ===================================================================== *)
(** ** Request bodies and [sanitizeSubmission] *)
(* ===================================================================== *)

Section Json.
(** JSON numbers are kept abstract: the code only converts them to
    strings. *)
Variable number : Type.
Variable numberToString : number -> jsstring.

(** A parsed JSON value, and [undefined] for what is not there. An
    object is the list of its own properties; the first binding of a
    key is its value. *)
Inductive value : Type :=
| VUndefined
| VNull
| VBool (b : bool)
| VNumber (n : number)
| VString (s : jsstring)
| VArray (elems : list value)
| VObject (props : list (jsstring * value)).

Fixpoint lookup (k : jsstring) (props : list (jsstring * value))
  : option value :=
  match props with
  | [] => None
  | (k', v) :: rest => if JsString.eqb k k' then Some v else lookup k rest
  end.

(** [o.k] for the property names this program reads, none of which is
    on a built-in prototype: reading from [null] or [undefined] throws,
    an object gives its own property, anything else gives
    [undefined]. *)
Definition getProp (o : value) (k : jsstring) : result value :=
  match o with
  | VUndefined | VNull => Throw TypeError
  | VObject props =>
      match lookup k props with
      | Some v => Ok v
      | None => Ok VUndefined
      end
  | _ => Ok VUndefined
  end.

(** [String(v)]. An array is joined with commas, [null] and
    [undefined] elements giving the empty string. A plain object gives
    [[object Object]], unless it has an own [toString] property: parsed
    from JSON that property is not callable, the conversion falls
    through [valueOf] and throws. *)
Fixpoint ToString (v : value) : result jsstring :=
  match v with
  | VUndefined => Ok (utf16 "undefined")
  | VNull => Ok (utf16 "null")
  | VBool true => Ok (utf16 "true")
  | VBool false => Ok (utf16 "false")
  | VNumber n => Ok (numberToString n)
  | VString s => Ok s
  | VArray elems =>
      (fix joinElems (l : list value) : result jsstring :=
         match l with
         | [] => Ok []
         | x :: rest =>
             s <- match x with
                  | VUndefined | VNull => Ok []
                  | _ => ToString x
                  end ;;
             match rest with
             | [] => Ok s
             | _ => r <- joinElems rest ;; Ok (s ++ utf16 "," ++ r)
             end
         end) elems
  | VObject props =>
      match lookup (utf16 "toString") props with
      | Some _ => Throw TypeError
      | None => Ok (utf16 "[object Object]")
      end
  end.

(** [const pick = (v) => (v == null ? '' : String(v).trim())] *)
Definition pick (v : value) : result jsstring :=
  match v with
  | VUndefined | VNull => Ok []
  | _ => s <- ToString v ;; Ok (trim s)
  end.

(** [pick(o.k)] *)
Definition pickProp (o : value) (k : string) : result jsstring :=
  v <- getProp o (utf16 k) ;; pick v.

(** The callback of [b.participants.map]: [i] is the array index. *)
Definition sanitizeParticipant (p : value) (i : N) : result Participant :=
  name <- pickProp p "name" ;;
  birthYear <- pickProp p "birthYear" ;;
  hasRank <- pickProp p "hasRank" ;;
  performingRank <- pickProp p "performingRank" ;;
  medicalVisa <- pickProp p "medicalVisa" ;;
  Ok (mkParticipant (i + 1) name birthYear hasRank performingRank
        medicalVisa).

(** [arr.map((p, i) => ...)] from index [i] on. *)
Fixpoint mapParticipants (i : N) (arr : list value)
  : result (list Participant) :=
  match arr with
  | [] => Ok []
  | p :: rest =>
      q <- sanitizeParticipant p i ;;
      qs <- mapParticipants (i + 1) rest ;;
      Ok (q :: qs)
  end.

Definition sanitizeSubmission (now : DateTime) (b : value)
  : result Submission :=
  date0 <- pickProp b "date" ;;
  city <- pickProp b "city" ;;
  club <- pickProp b "club" ;;
  contacts <- pickProp b "contacts" ;;
  coach <- pickProp b "coach" ;;
  judge <- pickProp b "judge" ;;
  judgeCategory <- pickProp b "judgeCategory" ;;
  ps <- getProp b (utf16 "participants") ;;
  participants <- match ps with
                  | VArray arr => mapParticipants 0 arr
                  | _ => Ok []
                  end ;;
  Ok (mkSubmission (orElse date0 (format_DD_MM_YYYY now))
        city club contacts coach judge judgeCategory participants).
End Json.

Arguments VUndefined {number}.
Arguments VNull {number}.
Arguments VBool {number} b.
Arguments VNumber {number} n.
Arguments VString {number} s.
Arguments VArray {number} elems.
Arguments VObject {number} props.
Arguments lookup {number} k props.
Arguments getProp {number} o k.
Arguments ToString {number} numberToString v.
Arguments pick {number} numberToString v.
Arguments pickProp {number} numberToString o k.
Arguments sanitizeParticipant {number} numberToString p i.
Arguments mapParticipants {number} numberToString i arr.
Arguments sanitizeSubmission {number} numberToString now b.

(* ===================================================================== *)
(** ** The roster log: [ensureWorkbook] and [appendToExcel] *)
(* ===================================================================== *)

Module Excel.

Inductive Cell : Type :=
| Blank
| Text (s : jsstring)
| Num (n : N).

Record Column : Type := mkColumn {
  header : jsstring;
  key : option jsstring;
  width : N
}.

(** A worksheet: its columns (their headers are the header row) and its
    data rows, each row holding one cell per column, [Blank] where the
    row has no value. *)
Record Worksheet : Type := mkWorksheet {
  sheetName : jsstring;
  columns : list Column;
  rows : list (list Cell)
}.

Definition Workbook := list Worksheet.

(** A row has a cell with a value. *)
Definition hasValues (r : list Cell) : bool :=
  existsb (fun c => match c with Blank => false | _ => true end) r.

(** What of a workbook is in an xlsx file: the keys of the columns are
    not stored, and neither is a row without a value. *)
Definition persistSheet (ws : Worksheet) : Worksheet :=
  mkWorksheet (sheetName ws)
    (map (fun c => mkColumn (header c) None (width c)) (columns ws))
    (filter hasValues (rows ws)).

Definition persist (wb : Workbook) : Workbook := map persistSheet wb.

(** [EXCEL_PATH]: no file, a workbook file, or a file that is not a
    readable workbook. *)
Inductive FileSystem : Type :=
| NoFile
| XlsxFile (wb : Workbook)
| OtherFile.

Definition existsSync (fs : FileSystem) : bool :=
  match fs with
  | NoFile => false
  | _ => true
  end.

(** [wb.xlsx.writeFile(EXCEL_PATH)]; a write that fails (rights, disk) is
    not part of the model. *)
Definition writeFile (wb : Workbook) (fs : FileSystem) : FileSystem :=
  XlsxFile (persist wb).

(** [wb.xlsx.readFile(EXCEL_PATH)] *)
Definition readFile (fs : FileSystem) : result Workbook :=
  match fs with
  | XlsxFile wb => Ok (persist wb)
  | _ => Throw IOError
  end.

Fixpoint getWorksheet (n : jsstring) (wb : Workbook) : option Worksheet :=
  match wb with
  | [] => None
  | ws :: rest =>
      if JsString.eqb (sheetName ws) n then Some ws else getWorksheet n rest
  end.

(** [wb.getWorksheet(n) || wb.addWorksheet(n)], followed by the in-place
    update [f] of that sheet. *)
Fixpoint withWorksheet (n : jsstring) (f : Worksheet -> Worksheet)
  (wb : Workbook) : Workbook :=
  match wb with
  | [] => [f (mkWorksheet n [] [])]
  | ws :: rest =>
      if JsString.eqb (sheetName ws) n then f ws :: rest
      else ws :: withWorksheet n f rest
  end.

Fixpoint field (k : jsstring) (obj : list (jsstring * Cell)) : Cell :=
  match obj with
  | [] => Blank
  | (k', c) :: rest => if JsString.eqb k k' then c else field k rest
  end.

(** The cell of a column in the row made of [obj]: the value under the
    key of the column; nothing when the column has no key. *)
Definition cellFor (obj : list (jsstring * Cell)) (c : Column) : Cell :=
  match key c with
  | Some k => field k obj
  | None => Blank
  end.

(** [ws.addRow(obj)]: a new last row, filled by column key. *)
Definition addRow (obj : list (jsstring * Cell)) (ws : Worksheet)
  : Worksheet :=
  mkWorksheet (sheetName ws) (columns ws)
    (rows ws ++ [map (cellFor obj) (columns ws)]).

End Excel.
Import Excel.

Definition col (h k : string) (w : N) : Column :=
  mkColumn (utf16 h) (Some (utf16 k)) w.

Definition submissionColumns : list Column :=
  [ col "Timestamp" "ts" 20;
    col "Date (on form)" "date" 16;
    col "City" "city" 16;
    col "Club/School" "club" 32;
    col "Contacts" "contacts" 32;
    col "Coach (FIO)" "coach" 28;
    col "Judge (FIO)" "judge" 28;
    col "Judge Category" "judgeCategory" 18;
    col "Participant #" "p_idx" 12;
    col "Participant Name" "p_name" 28;
    col "Birth Year" "p_birth" 12;
    col "Has Rank" "p_has" 14;
    col "Performing Rank" "p_perf" 16;
    col "Medical Visa" "p_med" 16 ].

Definition sheetTitle : jsstring := utf16 "Submissions".

(** [ensureWorkbook]: a new workbook with the one sheet and its columns,
    written to [EXCEL_PATH]. *)
Definition ensureWorkbook (fs : FileSystem) : FileSystem :=
  let ws := mkWorksheet sheetTitle submissionColumns [] in
  writeFile [ws] fs.

(** The fields every row of a submission shares. *)
Definition commonFields (ts : jsstring) (payload : Submission)
  : list (jsstring * Cell) :=
  [ (utf16 "ts", Text ts);
    (utf16 "date", Text (date payload));
    (utf16 "city", Text (city payload));
    (utf16 "club", Text (club payload));
    (utf16 "contacts", Text (contacts payload));
    (utf16 "coach", Text (coach payload));
    (utf16 "judge", Text (judge payload));
    (utf16 "judgeCategory", Text (judgeCategory payload)) ].

Definition participantFields (p : Participant) : list (jsstring * Cell) :=
  [ (utf16 "p_idx", Num (idx p));
    (utf16 "p_name", Text (name p));
    (utf16 "p_birth", Text (birthYear p));
    (utf16 "p_has", Text (hasRank p));
    (utf16 "p_perf", Text (performingRank p));
    (utf16 "p_med", Text (medicalVisa p)) ].

(** The rows [appendToExcel] adds to the sheet. *)
Definition addSubmission (ts : jsstring) (payload : Submission)
  (ws : Worksheet) : Worksheet :=
  match participants payload with
  | [] => addRow (commonFields ts payload) ws
  | ps =>
      fold_left
        (fun w p => addRow (commonFields ts payload ++ participantFields p) w)
        ps ws
  end.

(** The opening of [appendToExcel]: the workbook read from the file, which
    [ensureWorkbook] writes first when it is not there; with the state of
    the file after it. *)
Definition openWorkbook (fs : FileSystem) : result (FileSystem * Workbook) :=
  if existsSync fs then
    wb <- readFile fs ;; Ok (fs, wb)
  else
    let fs1 := ensureWorkbook fs in
    wb <- readFile fs1 ;; Ok (fs1, wb).

Definition appendToExcel (now : DateTime) (payload : Submission)
  (fs : FileSystem) : result FileSystem :=
  o <- openWorkbook fs ;;
  let '(fs1, wb) := o in
  let ts := format_timestamp now in
  let wb' := withWorksheet sheetTitle (addSubmission ts payload) wb in
  Ok (writeFile wb' fs1).

(* ===================================================================== *)
(** ** The rendered document: [cell] and [buildDocx] *)
(* ===================================================================== *)

Module Docx.

Inductive AlignmentType : Type :=
| LEFT
| CENTER.

Record TextRun : Type := mkTextRun {
  text : jsstring;
  font : option jsstring;
  size : option N;
  bold : bool;
  italics : bool
}.

Record Paragraph : Type := mkParagraph {
  alignment : option AlignmentType;
  spacingBefore : option N;
  spacingAfter : option N;
  runs : list TextRun
}.

(** A table cell; the margins and the four single borders are the same on
    every cell and are left out. *)
Record TableCell : Type := mkTableCell {
  cellWidth : N;
  shading : option jsstring;
  content : Paragraph
}.

Definition TableRow := list TableCell.

Record Table : Type := mkTable {
  columnWidths : list N;
  tableRows : list TableRow
}.

Inductive Block : Type :=
| Para (p : Paragraph)
| Tbl (t : Table).

(** The single section of the document: page margins and children. *)
Record Document : Type := mkDocument {
  margin : N;
  children : list Block
}.

Definition cellText (c : TableCell) : jsstring :=
  List.concat (map text (runs (content c))).

End Docx.
Import Docx.

Definition timesNewRoman : option jsstring := Some (utf16 "Times New Roman").

(** The options object of [cell]. *)
Record CellOpts : Type := mkCellOpts {
  optWidth : option N;
  optShading : option jsstring;
  optBold : bool;
  optAlign : option AlignmentType
}.

Definition widthOnly (w : N) : CellOpts := mkCellOpts (Some w) None false None.

Definition headerOpts (w : N) : CellOpts :=
  mkCellOpts (Some w) (Some (utf16 "D9D9D9")) true (Some CENTER).

Definition cell (txt : jsstring) (opts : CellOpts) : TableCell :=
  mkTableCell
    (match optWidth opts with
     | Some 0 | None => 1000
     | Some w => w
     end)
    (match optShading opts with
     | Some [] | None => None
     | Some sh => Some sh
     end)
    (mkParagraph
       (Some (match optAlign opts with
              | Some a => a
              | None => LEFT
              end))
       None None
       [mkTextRun txt timesNewRoman None (optBold opts) false]).

(** [arr.map((x, i) => f(x, i))] from index [i] on. *)
Fixpoint mapi {A B : Type} (f : A -> N -> B) (i : N) (l : list A) : list B :=
  match l with
  | [] => []
  | x :: rest => f x i :: mapi f (i + 1) rest
  end.

(** [[a, b].filter(Boolean).join(', ')] *)
Definition judgeLine (data : Submission) : jsstring :=
  join (utf16 ", ")
    (filter (fun s => negb (JsString.eqb s [])) [judge data; judgeCategory data]).

(** The source of the body rows of the participant table:
    [data.participants], or [new Array(8).fill(null)] when that is empty. *)
Definition rowSource (data : Submission) : list (option Participant) :=
  match participants data with
  | [] => repeat None 8
  | ps => map Some ps
  end.

Definition participantRow (p : option Participant) (i : N) : TableRow :=
  [ cell (ofN (match p with Some q => idx q | None => i + 1 end))
      (widthOnly 900);
    cell (match p with Some q => orElse (name q) [] | None => [] end)
      (widthOnly 3500);
    cell (match p with Some q => orElse (birthYear q) [] | None => [] end)
      (widthOnly 1400);
    cell (match p with Some q => orElse (hasRank q) [] | None => [] end)
      (widthOnly 1700);
    cell (match p with Some q => orElse (performingRank q) [] | None => [] end)
      (widthOnly 1900);
    cell (match p with Some q => orElse (medicalVisa q) [] | None => [] end)
      (widthOnly 1500) ].

Definition baseRun (txt : jsstring) : TextRun :=
  mkTextRun txt timesNewRoman (Some 24) false false.

Definition centered (rs : list TextRun) : Block :=
  Para (mkParagraph (Some CENTER) None None rs).

(** [new Paragraph({ text: ' ', spacing: { after: n } })] *)
Definition spacer (n : N) : Block :=
  Para (mkParagraph None None (Some n) [mkTextRun (utf16 " ") None None false false]).

Definition infoRow (label : string) (v : jsstring) : TableRow :=
  [ cell (utf16 label) (widthOnly 5500); cell v (widthOnly 5500) ].

Definition infoTable (data : Submission) : Table :=
  mkTable [5500; 5500]
    [ infoRow "Название клуба/спортивной школы" (orElse (club data) []);
      infoRow "Город" (orElse (city data) []);
      infoRow "Контакты (телефон, электронная почта)"
        (orElse (contacts data) []);
      infoRow "Тренер (Ф.И.О)" (orElse (coach data) []);
      infoRow "Судья (Ф.И.О), судейская категория" (judgeLine data) ].

Definition participantHeader : TableRow :=
  [ cell (utf16 "№" ++ [10] ++ utf16 "п/п") (headerOpts 900);
    cell (utf16 "ФИО гимнастки") (headerOpts 3500);
    cell (utf16 "Год рождения") (headerOpts 1400);
    cell (utf16 "Имеет разряд") (headerOpts 1700);
    cell (utf16 "Выступает разряд") (headerOpts 1900);
    cell (utf16 "Виза врача") (headerOpts 1500) ].

Definition participantTable (data : Submission) : Table :=
  mkTable [900; 3500; 1400; 1700; 1900; 1500]
    (participantHeader :: mapi participantRow 0 (rowSource data)).

(** [buildDocx]: the document handed to [Packer.toBuffer]; the buffer is
    identified with that document. *)
Definition buildDocx (data : Submission) : Document :=
  mkDocument 1134
    [ centered [mkTextRun (utf16 "ЗАЯВКА") timesNewRoman (Some 28) true false];
      centered
        [baseRun
           (utf16 "на участие в открытом турнире по художественной гимнастике")];
      centered
        [ mkTextRun (utf16 "«Акварель") timesNewRoman (Some 24) true true;
          mkTextRun (utf16 "Dance»") timesNewRoman (Some 24) true true ];
      centered [baseRun (utf16 "г. Мытищи, " ++ date data)];
      spacer 200;
      Tbl (infoTable data);
      spacer 160;
      Para (mkParagraph None (Some 200) (Some 120)
              [mkTextRun (utf16 "Индивидуальные упражнения") timesNewRoman
                 (Some 28) false true]);
      Tbl (participantTable data) ].

(** The tables of a document, in order. *)
Fixpoint tablesOf (bs : list Block) : list Table :=
  match bs with
  | [] => []
  | Tbl t :: rest => t :: tablesOf rest
  | Para _ :: rest => tablesOf rest
  end.

(** The body rows (all rows but the header row) of the last table of the
    document, which is the participant table. *)
Definition participantRows (d : Document) : list TableRow :=
  tl (tableRows (last (tablesOf (children d)) (mkTable [] []))).

(** The text of the paragraphs of a document, in order. *)
Fixpoint paragraphTexts (bs : list Block) : list jsstring :=
  match bs with
  | [] => []
  | Para p :: rest => List.concat (map text (runs p)) :: paragraphTexts rest
  | Tbl _ :: rest => paragraphTexts rest
  end.

(* ===================================================================== *)
(** ** The notification: [emailDocx] *)
(* ===================================================================== *)

Module Mailer.

Record Attachment : Type := mkAttachment {
  filename : jsstring;
  buffer : Document;
  contentType : jsstring
}.

Record Mail : Type := mkMail {
  from : jsstring;
  to : jsstring;
  subject : jsstring;
  body : jsstring;
  attachments : list Attachment
}.

(** [FROM_EMAIL] and [WORK_EMAIL], read from the environment. *)
Record Config : Type := mkConfig {
  FROM_EMAIL : jsstring;
  WORK_EMAIL : jsstring
}.

(** [transporter.sendMail]: the transport takes a message or rejects
    it. *)
Definition Transport := Mail -> result unit.

End Mailer.
Import Mailer.

Definition docxType : jsstring :=
  utf16 "application/vnd.openxmlformats-officedocument.wordprocessingml.document".

(** [`Заявка_${fileSafe(payload.club || 'Заявка')}.docx`] *)
Definition docxFileName (payload : Submission) : jsstring :=
  let safeName := fileSafe (orElse (club payload) (utf16 "Заявка")) in
  utf16 "Заявка_" ++ safeName ++ utf16 ".docx".

(** The message [emailDocx] hands to [transporter.sendMail]. *)
Definition emailDocx (cfg : Config) (payload : Submission) (buf : Document)
  : Mail :=
  let fileName := docxFileName payload in
  mkMail (FROM_EMAIL cfg) (WORK_EMAIL cfg)
    (utf16 "Заявка: " ++ orElse (club payload) (utf16 "без названия"))
    (join [10]
       [ utf16 "Клуб/школа: " ++ orElse (club payload) (utf16 "-");
         utf16 "Город: " ++ orElse (city payload) (utf16 "-");
         utf16 "Тренер: " ++ orElse (coach payload) (utf16 "-");
         utf16 "Контакты: " ++ orElse (contacts payload) (utf16 "-");
         utf16 "Судья: " ++ orElse (judgeLine payload) (utf16 "-");
         utf16 "Участниц: "
           ++ ofN (N.of_nat (List.length (participants payload))) ])
    [mkAttachment fileName buf docxType].

(* ===================================================================== *)
(** ** The routes *)
(* ===================================================================== *)

(** What a request can change: the log file and the messages the mail
    transport has taken, oldest first. *)
Record World : Type := mkWorld {
  file : FileSystem;
  outbox : list Mail
}.

Inductive Response : Type :=
| JsonOk
| JsonError (status : N) (msg : jsstring)
| DocxFile (fileName : jsstring) (doc : Document)
| ExcelFile (content : FileSystem).

Section Routes.
Variable number : Type.
Variable numberToString : number -> jsstring.
Variable cfg : Config.
Variable sendMail : Transport.

(** [POST /submit]; [t1] and [t2] are the clock readings of
    [sanitizeSubmission] and [appendToExcel]. Whatever throws is caught
    and answered with status 500; what was written before stays
    written. *)
Definition submit (t1 t2 : DateTime) (reqBody : value number) (w : World)
  : World * Response :=
  let failure :=
    JsonError 500 (utf16 "Не удалось сохранить и/или отправить письмо") in
  match sanitizeSubmission numberToString t1 reqBody with
  | Throw _ => (w, failure)
  | Ok payload =>
      match appendToExcel t2 payload (file w) with
      | Throw _ => (w, failure)
      | Ok fs =>
          let buf := buildDocx payload in
          let mail := emailDocx cfg payload buf in
          match sendMail mail with
          | Throw _ => (mkWorld fs (outbox w), failure)
          | Ok _ => (mkWorld fs (outbox w ++ [mail]), JsonOk)
          end
      end
  end.

(** [POST /download-docx]; the file name goes through
    [encodeURIComponent] into the header of the answer. *)
Definition downloadDocx (t1 : DateTime) (reqBody : value number) (w : World)
  : World * Response :=
  let failure := JsonError 500 (utf16 "Failed to generate DOCX") in
  match sanitizeSubmission numberToString t1 reqBody with
  | Throw _ => (w, failure)
  | Ok payload =>
      let buf := buildDocx payload in
      let fileName := docxFileName payload in
      match encodeURIComponent fileName with
      | Throw _ => (w, failure)
      | Ok _ => (w, DocxFile fileName buf)
      end
  end.
End Routes.

(** [GET /download-excel]: the file, written first by [ensureWorkbook]
    when it is not there, is sent as it is. *)
Definition downloadExcel (w : World) : World * Response :=
  let fs := if negb (existsSync (file w)) then ensureWorkbook (file w)
            else file w in
  (mkWorld fs (outbox w), ExcelFile fs).

Arguments submit {number} numberToString cfg sendMail t1 t2 reqBody w.
Arguments downloadDocx {number} numberToString t1 reqBody w.

(* ===================================================================== *)
(** ** Predicates used in the statements *)
(* ===================================================================== *)

(** The first code unit of [s] is in the class. *)
Definition startsIn (cls : N -> bool) (s : jsstring) : bool :=
  match s with
  | [] => false
  | c :: _ => cls c
  end.

(** The last code unit of [s] is in the class. *)
Definition endsIn (cls : N -> bool) (s : jsstring) : bool :=
  startsIn cls (rev s).

(** No code unit of [s] is in the class. *)
Definition avoids (cls : N -> bool) (s : jsstring) : Prop :=
  Forall (fun c => cls c = false) s.

(** [s] has no white space at either end. *)
Definition trimmed (s : jsstring) : Prop :=
  startsIn isSpace s = false /\ endsIn isSpace s = false.

(** Every white space of [s] is a single U+0020 between other code
    units or at an end. *)
Fixpoint collapsed (s : jsstring) : bool :=
  match s with
  | [] => true
  | c :: t =>
      (if isSpace c then (c =? 32) && negb (startsIn isSpace t) else true)
      && collapsed t
  end.

(** A summary line's value: the field, or a dash when it is empty. *)
Definition orDash (s : jsstring) : jsstring :=
  match s with
  | [] => utf16 "-"
  | _ => s
  end.

(** Judge and category joined by a comma, empty parts dropped. *)
Definition judgeAndCategory (j c : jsstring) : jsstring :=
  match j, c with
  | [], [] => []
  | _, [] => j
  | [], _ => c
  | _, _ => j ++ utf16 ", " ++ c
  end.

(** The ordinals [1; ...; n]. *)
Definition positions (n : nat) : list N := map N.of_nat (seq 1 n).

(** The data rows of the log file: those of the sheet of submissions as
    the file stores it, none when there is no readable file or no such
    sheet. *)
Definition logRows (fs : FileSystem) : list (list Cell) :=
  match fs with
  | XlsxFile wb =>
      match getWorksheet sheetTitle (persist wb) with
      | Some ws => rows ws
      | None => []
      end
  | _ => []
  end.

(** No column has a key. *)
Definition keyless (ws : Worksheet) : Prop :=
  Forall (fun c => key c = None) (columns ws).

(** [wb.getWorksheet(n) || wb.addWorksheet(n)] without an update. *)
Definition ensureSheet (n : jsstring) (wb : Workbook) : Workbook :=
  withWorksheet n (fun ws => ws) wb.

(** The log file is absent or a readable workbook. *)
Definition usable (fs : FileSystem) : Prop := fs <> OtherFile.

(** The log file [ensureWorkbook] leaves: the sheet of submissions with
    its fourteen columns and no data row. *)
Definition freshLog : FileSystem :=
  XlsxFile
    [mkWorksheet sheetTitle
       (map (fun c => mkColumn (header c) None (width c)) submissionColumns)
       []].

(** The eight cells every row of a submission is meant to start with. *)
Definition submissionCells (ts : jsstring) (payload : Submission) : list Cell :=
  [ Text ts; Text (date payload); Text (city payload); Text (club payload);
    Text (contacts payload); Text (coach payload); Text (judge payload);
    Text (judgeCategory payload) ].

Definition participantCells (p : Participant) : list Cell :=
  [ Num (idx p); Text (name p); Text (birthYear p); Text (hasRank p);
    Text (performingRank p); Text (medicalVisa p) ].

(** No unsafe character and no white space. *)
Definition clean (s : jsstring) : Prop :=
  avoids isUnsafe s /\ avoids isSpace s.

(** White space other than line feed and carriage return. *)
Definition blank (s : jsstring) : Prop :=
  Forall (fun c => isSpace c = true /\ isUnsafe c = false) s.

(** The texts of the cells of a participant's row of the document. *)
Definition participantTexts (p : Participant) : list jsstring :=
  [ ofN (idx p); name p; birthYear p; hasRank p; performingRank p;
    medicalVisa p ].

(** The texts of a blank row of the document with ordinal [i]. *)
Definition blankTexts (i : N) : list jsstring := [ofN i; []; []; []; []; []].

(** The texts of the body rows of the participant table. *)
Definition participantTableTexts (d : Document) : list (list jsstring) :=
  map (map cellText) (participantRows d).

Section WellFormed.
Variable number : Type.

(** [String(v)] does not throw: no object with an own [toString]
    property is reached through arrays. *)
Fixpoint convertible (v : value number) : bool :=
  match v with
  | VArray elems => forallb convertible elems
  | VObject props =>
      match lookup (utf16 "toString") props with
      | Some _ => false
      | None => true
      end
  | _ => true
  end.

(** [pick(o.k)] does not throw. *)
Definition fieldOk (o : value number) (k : string) : bool :=
  match getProp o (utf16 k) with
  | Ok v => convertible v
  | Throw _ => false
  end.

Definition participantOk (p : value number) : bool :=
  fieldOk p "name" && fieldOk p "birthYear" && fieldOk p "hasRank"
  && fieldOk p "performingRank" && fieldOk p "medicalVisa".

(** The request bodies [sanitizeSubmission] accepts. *)
Definition bodyOk (b : value number) : bool :=
  fieldOk b "date" && fieldOk b "city" && fieldOk b "club"
  && fieldOk b "contacts" && fieldOk b "coach" && fieldOk b "judge"
  && fieldOk b "judgeCategory"
  && match getProp b (utf16 "participants") with
     | Ok (VArray arr) => forallb participantOk arr
     | Ok _ => true
     | Throw _ => false
     end.

(** Induction on values that goes through the elements of arrays. *)
Section NestedInduction.
Variable P : value number -> Prop.
Hypothesis HUndefined : P VUndefined.
Hypothesis HNull : P VNull.
Hypothesis HBool : forall b, P (VBool b).
Hypothesis HNumber : forall n, P (VNumber n).
Hypothesis HString : forall s, P (VString s).
Hypothesis HArray : forall elems, Forall P elems -> P (VArray elems).
Hypothesis HObject : forall props, P (VObject props).

Fixpoint value_nested_ind (v : value number) : P v :=
  match v with
  | VUndefined => HUndefined
  | VNull => HNull
  | VBool b => HBool b
  | VNumber n => HNumber n
  | VString s => HString s
  | VArray elems =>
      HArray elems
        ((fix all (l : list (value number)) : Forall P l :=
            match l with
            | [] => Forall_nil P
            | x :: rest => Forall_cons x (value_nested_ind x) (all rest)
            end) elems)
  | VObject props => HObject props
  end.
End NestedInduction.
End WellFormed.

Arguments convertible {number} v.
Arguments fieldOk {number} o k.
Arguments participantOk {number} p.
Arguments bodyOk {number} b.

(** A decimal digit. *)
Definition digit (d : N) : N := 48 + d.

(** The text DD.MM.YYYY of a date. *)
Definition ddmmyyyy (d : DateTime) : jsstring :=
  [ digit (day d / 10); digit (day d mod 10); 46;
    digit (month d / 10); digit (month d mod 10); 46;
    digit (year d / 1000); digit ((year d / 100) mod 10);
    digit ((year d / 10) mod 10); digit (year d mod 10) ].

(* ===================================================================== *)
(** ** Sample requests *)
(* ===================================================================== *)

Definition sampleClock : DateTime := mkDateTime 2025 10 12 9 5 0.

(** A transport that takes every message, and one that takes none. *)
Definition accepting : Transport := fun _ => Ok tt.
Definition rejecting : Transport := fun _ => Throw IOError.

(** A request of one participant, without a date. *)
Definition sampleBody : value N :=
  VObject
    [ (utf16 "city", VString (utf16 "Мытищи"));
      (utf16 "club", VString (utf16 "Звезда"));
      (utf16 "coach", VString (utf16 "Иванова И.И."));
      (utf16 "participants",
        VArray
          [ VObject [ (utf16 "name", VString (utf16 "Петрова А."));
                      (utf16 "birthYear", VString (utf16 "2012")) ] ]) ].

Definition samplePayload : Submission :=
  mkSubmission (utf16 "12.10.2025") (utf16 "Мытищи") (utf16 "Звезда") []
    (utf16 "Иванова И.И.") [] []
    [mkParticipant 1 (utf16 "Петрова А.") (utf16 "2012") [] [] []].

(** A request whose participants carry ordinals of their own. *)
Definition numberedBody : value N :=
  VObject
    [ (utf16 "date", VString (utf16 " 01.02.2026 "));
      (utf16 "participants",
        VArray
          [ VObject [ (utf16 "idx", VNumber 7);
                      (utf16 "name", VString (utf16 "A")) ];
            VObject [ (utf16 "idx", VString (utf16 "x")) ];
            VNumber 3 ]) ].

(* ===================================================================== *)
(** ** Further notions: records as values, layout, order of timestamps *)
(* ===================================================================== *)

Section RecordValues.
Variable number : Type.
(** The number [n] as a JavaScript number. *)
Variable fromN : N -> number.

(** A normalized participant, as the JavaScript object it is. *)
Definition participantValue (p : Participant) : value number :=
  VObject
    [ (utf16 "idx", VNumber (fromN (idx p)));
      (utf16 "name", VString (name p));
      (utf16 "birthYear", VString (birthYear p));
      (utf16 "hasRank", VString (hasRank p));
      (utf16 "performingRank", VString (performingRank p));
      (utf16 "medicalVisa", VString (medicalVisa p)) ].

(** The record [sanitizeSubmission] returns, as the JavaScript object it
    is. *)
Definition submissionValue (s : Submission) : value number :=
  VObject
    [ (utf16 "date", VString (date s));
      (utf16 "city", VString (city s));
      (utf16 "club", VString (club s));
      (utf16 "contacts", VString (contacts s));
      (utf16 "coach", VString (coach s));
      (utf16 "judge", VString (judge s));
      (utf16 "judgeCategory", VString (judgeCategory s));
      (utf16 "participants",
        VArray (map participantValue (participants s))) ].
End RecordValues.

Arguments participantValue {number} fromN p.
Arguments submissionValue {number} fromN s.

(** The cells of a row are as wide as the columns of its table. *)
Definition rowFits (t : Table) (r : TableRow) : Prop :=
  map cellWidth r = columnWidths t.

(** A cell as [cell] makes them: one left-aligned or centred paragraph of
    one run in Times New Roman. *)
Definition plainCell (c : TableCell) : Prop :=
  exists txt b a,
    content c
    = mkParagraph (Some a) None None [mkTextRun txt timesNewRoman None b false].

Definition tableFits (t : Table) : Prop :=
  Forall (fun r => rowFits t r /\ Forall plainCell r) (tableRows t).

(** [a < b] on strings: the order of code units, a proper prefix first. *)
Fixpoint ltb (a b : jsstring) : bool :=
  match a, b with
  | _, [] => false
  | [], _ :: _ => true
  | x :: a', y :: b' => (x <? y) || ((x =? y) && ltb a' b')
  end.

(** [t1] is before [t2]. *)
Definition earlier (t1 t2 : DateTime) : bool :=
  (year t1 <? year t2)
  || ((year t1 =? year t2)
      && ((month t1 <? month t2)
          || ((month t1 =? month t2)
              && ((day t1 <? day t2)
                  || ((day t1 =? day t2)
                      && ((hour t1 <? hour t2)
                          || ((hour t1 =? hour t2)
                              && ((minute t1 <? minute t2)
                                  || ((minute t1 =? minute t2)
                                      && (second t1 <? second t2)))))))))).

(** A reading of the clock with a year of at most four digits. *)
Definition clockInRange (t : DateTime) : Prop :=
  year t < 10000 /\ 1 <= month t <= 12 /\ 1 <= day t <= 31
  /\ hour t < 24 /\ minute t < 60 /\ second t < 60.

(** The text YYYY-MM-DD HH:mm:ss of a reading of the clock. *)
Definition timestampText (t : DateTime) : jsstring :=
  [ digit (year t / 1000); digit ((year t / 100) mod 10);
    digit ((year t / 10) mod 10); digit (year t mod 10); 45;
    digit (month t / 10); digit (month t mod 10); 45;
    digit (day t / 10); digit (day t mod 10); 32;
    digit (hour t / 10); digit (hour t mod 10); 58;
    digit (minute t / 10); digit (minute t mod 10); 58;
    digit (second t / 10); digit (second t mod 10) ].

(** The failure answer of [POST /submit]. *)
Definition submitFailure : Response :=
  JsonError 500 (utf16 "Не удалось сохранить и/или отправить письмо").

(** A participant whose fields are trimmed. *)
Definition trimmedParticipant (q : Participant) : Prop :=
  trimmed (name q) /\ trimmed (birthYear q) /\ trimmed (hasRank q)
  /\ trimmed (performingRank q) /\ trimmed (medicalVisa q).

(** A record in normal form: a date, every string trimmed, participants
    numbered from 1. *)
Definition canonical (s : Submission) : Prop :=
  date s <> [] /\ trimmed (date s)
  /\ trimmed (city s) /\ trimmed (club s) /\ trimmed (contacts s)
  /\ trimmed (coach s) /\ trimmed (judge s) /\ trimmed (judgeCategory s)
  /\ Forall trimmedParticipant (participants s)
  /\ map idx (participants s) = positions (List.length (participants s)).

(** The code units of the decimal digits. *)
Definition isDigit (c : N) : Prop := 48 <= c <= 57.

(* ===================================================================== *)
(** ** The page script of [getHtml] *)
(* ===================================================================== *)

(** The script the page runs, on a model of the elements it touches. *)
Module Page.

(** A row of the participant table: the text of its [td.idx] and the
    values of its inputs, in document order. *)
Record Tr : Type := mkTr {
  idxText : jsstring;
  inputs : list jsstring
}.

(** The values of the six inputs with an id, the rows of the table body
    and the text of the status line. *)
Record Page : Type := mkPage {
  club : jsstring;
  city : jsstring;
  contacts : jsstring;
  coach : jsstring;
  judge : jsstring;
  judgeCategory : jsstring;
  tbody : list Tr;
  status : jsstring
}.

(** The text of [#dateDisplay], which the script never changes. *)
Definition dateDisplay : jsstring := utf16 "12 октября 2025 г.".

Definition setTbody (rows : list Tr) (pg : Page) : Page :=
  mkPage (club pg) (city pg) (contacts pg) (coach pg) (judge pg)
    (judgeCategory pg) rows (status pg).

Definition setStatus (txt : jsstring) (pg : Page) : Page :=
  mkPage (club pg) (city pg) (contacts pg) (coach pg) (judge pg)
    (judgeCategory pg) (tbody pg) txt.

(** [renumber]: [idx.textContent = i + 1] for every row. *)
Definition renumber (rows : list Tr) : list Tr :=
  mapi (fun tr i => mkTr (ofN (i + 1)) (inputs tr)) 0 rows.

(** [addRow]: a new last row of five empty inputs, then [renumber]. *)
Definition addRow (pg : Page) : Page :=
  setTbody (renumber (tbody pg ++ [mkTr [] [[]; []; []; []; []]])) pg.

(** [removeRow]: drops the last row unless it is the only one. *)
Definition removeRow (pg : Page) : Page :=
  if Nat.ltb 1 (List.length (tbody pg))
  then setTbody (renumber (removelast (tbody pg))) pg
  else pg.

(** The page after [DOMContentLoaded]: empty inputs and one row. *)
Definition loaded : Page := addRow (mkPage [] [] [] [] [] [] [] []).

(** The file name the served script computes. [getHtml] writes the two
    patterns inside a template literal, where a backslash before [w] or
    [s] is dropped and [Ѐ] is the character itself: the script the
    browser gets keeps the letters w and s, U+0400 to U+04FF, the dot and
    the hyphen, turns every other code unit into an underscore, and then
    every run of the letter s into a space. *)
Definition isKept (c : N) : bool :=
  (c =? 119) || ((1024 <=? c) && (c <=? 1279)) || (c =? 115)
  || (c =? 46) || (c =? 45).

Definition isLetterS (c : N) : bool := c =? 115.

Definition fileNameFromClub (pg : Page) : jsstring :=
  let club0 := trim (orElse (club pg) (utf16 "Заявка")) in
  utf16 "Заявка_"
  ++ trim (replaceRuns isLetterS (utf16 " ")
             (map (fun c => if isKept c then c else 95) club0))
  ++ utf16 ".docx".

Section Requests.
Variable number : Type.
Variable numberToString : number -> jsstring.
Variable cfg : Config.
Variable sendMail : Transport.

(** The [i]th of the destructured values: a string, or [undefined] when
    the row has fewer inputs. *)
Definition nthValue (i : nat) (vals : list jsstring) : value number :=
  match nth_error vals i with
  | Some v => VString v
  | None => VUndefined
  end.

Definition collectRow (tr : Tr) : value number :=
  let vals := map trim (inputs tr) in
  VObject
    [ (utf16 "name", nthValue 0 vals);
      (utf16 "birthYear", nthValue 1 vals);
      (utf16 "hasRank", nthValue 2 vals);
      (utf16 "performingRank", nthValue 3 vals);
      (utf16 "medicalVisa", nthValue 4 vals) ].

(** [collect]: the payload, as it reaches the server through
    [JSON.stringify] and the JSON body parser. *)
Definition collect (pg : Page) : value number :=
  VObject
    [ (utf16 "date", VString dateDisplay);
      (utf16 "city", VString (trim (orElse (city pg) [])));
      (utf16 "club", VString (trim (orElse (club pg) [])));
      (utf16 "contacts", VString (trim (orElse (contacts pg) [])));
      (utf16 "coach", VString (trim (orElse (coach pg) [])));
      (utf16 "judge", VString (trim (orElse (judge pg) [])));
      (utf16 "judgeCategory", VString (trim (orElse (judgeCategory pg) [])));
      (utf16 "participants", VArray (map collectRow (tbody pg))) ].

(** [submitForm]: posts the payload to [/submit] and shows the outcome in
    the status line. *)
Definition submitForm (t1 t2 : DateTime) (pg : Page) (w : World)
  : Page * World :=
  let '(w', res) := submit numberToString cfg sendMail t1 t2 (collect pg) w in
  (setStatus
     (match res with
      | JsonOk => utf16 "Заявка отправлена на почту и сохранена."
      | JsonError _ msg => utf16 "Ошибка: " ++ orElse msg []
      | _ => utf16 "Сеть/сервер недоступны"
      end) pg,
   w').

(** [downloadDocx] of the page: posts the payload to [/download-docx] (the
    route [downloadDocx] of the server, on the right) and saves the answer
    under the name [fileNameFromClub] gives. *)
Definition downloadDocx (t1 : DateTime) (pg : Page) (w : World)
  : World * (jsstring * Response) :=
  let '(w', res) := downloadDocx numberToString t1 (collect pg) w in
  (w', (fileNameFromClub pg, res)).
End Requests.

(** What the user and the script can do to a page. *)
Inductive step : Page -> Page -> Prop :=
| step_addRow (pg : Page) : step pg (addRow pg)
| step_removeRow (pg : Page) : step pg (removeRow pg)
| step_input (pg pg' : Page) :
    map idxText (tbody pg') = map idxText (tbody pg) ->
    map (fun tr => List.length (inputs tr)) (tbody pg')
    = map (fun tr => List.length (inputs tr)) (tbody pg) ->
    step pg pg'.

(** The pages reached from the loaded page. *)
Inductive reachable : Page -> Prop :=
| reach_loaded : reachable loaded
| reach_step (pg pg' : Page) : reachable pg -> step pg pg' -> reachable pg'.

(** The table has a row, the rows show 1, 2, ... and have five inputs. *)
Definition numbered (pg : Page) : Prop :=
  tbody pg <> []
  /\ map idxText (tbody pg)
     = map ofN (positions (List.length (tbody pg)))
  /\ Forall (fun tr => List.length (inputs tr) = 5%nat) (tbody pg).

(** The participant a row is normalized to at index [i]. *)
Definition rowParticipant (tr : Tr) (i : N) : Participant :=
  mkParticipant (i + 1)
    (trim (nth 0 (inputs tr) [])) (trim (nth 1 (inputs tr) []))
    (trim (nth 2 (inputs tr) [])) (trim (nth 3 (inputs tr) []))
    (trim (nth 4 (inputs tr) [])).

(** The record the server makes of a page. *)
Definition pageRecord (pg : Page) : Submission :=
  mkSubmission dateDisplay (trim (city pg)) (trim (club pg))
    (trim (contacts pg)) (trim (coach pg)) (trim (judge pg))
    (trim (judgeCategory pg)) (mapi rowParticipant 0 (tbody pg)).

(** Cyrillic letters, dots and hyphens only. *)
Definition plainName (s : jsstring) : Prop :=
  Forall (fun c => 1024 <= c <= 1279 \/ c = 46 \/ c = 45) s.

End Page.

Arguments Page.nthValue {number} i vals.
Arguments Page.collectRow {number} tr.
Arguments Page.collect {number} pg.
Arguments Page.submitForm {number} numberToString cfg sendMail t1 t2 pg w.
Arguments Page.downloadDocx {number} numberToString t1 pg w.

Example utf16_prefix :
  utf16 "Заявка_" = [1047; 1072; 1103; 1074; 1082; 1072; 95].
Proof. reflexivity. Qed.

Example utf16_numero : utf16 "№" = [8470].
Proof. reflexivity. Qed.

Example fileSafe_slashes : fileSafe (utf16 "A//B") = utf16 "A_B".
Proof. reflexivity. Qed.

Example fileSafe_mixed :
  fileSafe (utf16 "  A/B:C   D  ") = utf16 "A_B_C D".
Proof. reflexivity. Qed.

(* ===================================================================== *)
(** ** Facts on strings *)
(* ===================================================================== *)

Section ReplaceFacts.
Variable cls : N -> bool.
Variable rep : jsstring.

Lemma afterMatch_dropWhile (s : jsstring) :
  afterMatch cls rep s = replaceRuns cls rep (dropWhile cls s).
Proof.
  induction s as [|c t IH]; simpl; [reflexivity|].
  destruct (cls c) eqn:E; [exact IH|].
  simpl. now rewrite E.
Qed.

(** The reading of the pattern as a greedy match. *)
Lemma replaceRuns_match (c : N) (t : jsstring) :
  cls c = true ->
  replaceRuns cls rep (c :: t) = rep ++ replaceRuns cls rep (dropWhile cls t).
Proof.
  intros E. simpl. rewrite E. now rewrite afterMatch_dropWhile.
Qed.

Lemma replaceRuns_avoids (s : jsstring) :
  avoids cls s -> replaceRuns cls rep s = s.
Proof.
  induction 1 as [|c t Hc _ IH]; simpl; [reflexivity|].
  now rewrite Hc, IH.
Qed.

Lemma replace_Forall (P : N -> Prop) (s : jsstring) :
  Forall P rep ->
  (forall c, In c s -> cls c = false -> P c) ->
  Forall P (replaceRuns cls rep s) /\ Forall P (afterMatch cls rep s).
Proof.
  intros Hrep. induction s as [|c t IH]; intros Hs; simpl.
  - split; constructor.
  - destruct IH as [IH1 IH2].
    { intros x Hx. apply Hs. now right. }
    destruct (cls c) eqn:E.
    + split; [apply Forall_app; split; assumption | assumption].
    + split; constructor; try assumption; apply Hs; auto; now left.
Qed.

Lemma replaceRuns_clean (s : jsstring) :
  avoids cls rep -> avoids cls (replaceRuns cls rep s).
Proof.
  intros Hrep. apply replace_Forall; [exact Hrep | auto].
Qed.

Lemma afterMatch_outside (s : jsstring) :
  startsIn cls s = false -> afterMatch cls rep s = replaceRuns cls rep s.
Proof.
  destruct s as [|c t]; simpl; [reflexivity|].
  now intros ->.
Qed.

Lemma afterMatch_run (run s : jsstring) :
  forallb cls run = true ->
  afterMatch cls rep (run ++ s) = afterMatch cls rep s.
Proof.
  induction run as [|c t IH]; simpl; [reflexivity|].
  intros H. apply andb_true_iff in H as [Hc Ht].
  rewrite Hc. now apply IH.
Qed.

Lemma replace_app_outside (a : jsstring) (c : N) (s : jsstring) :
  cls c = false ->
  replaceRuns cls rep (a ++ c :: s)
    = replaceRuns cls rep (a ++ [c]) ++ replaceRuns cls rep s
  /\ afterMatch cls rep (a ++ c :: s)
    = afterMatch cls rep (a ++ [c]) ++ replaceRuns cls rep s.
Proof.
  intros Hc. induction a as [|x a [IH1 IH2]]; simpl.
  - now rewrite Hc.
  - destruct (cls x); rewrite ?IH1, ?IH2, ?app_assoc; auto.
Qed.

Lemma endsIn_false_inv (a : jsstring) :
  endsIn cls a = false ->
  a = [] \/ exists a' c, a = a' ++ [c] /\ cls c = false.
Proof.
  unfold endsIn. destruct (rev a) as [|c r] eqn:E; intros H.
  - left. apply (f_equal (@rev N)) in E. now rewrite rev_involutive in E.
  - right. exists (rev r), c. split; [|exact H].
    apply (f_equal (@rev N)) in E. now rewrite rev_involutive in E.
Qed.

Lemma replaceRuns_app (a s : jsstring) :
  endsIn cls a = false ->
  replaceRuns cls rep (a ++ s) = replaceRuns cls rep a ++ replaceRuns cls rep s.
Proof.
  intros H. destruct (endsIn_false_inv a H) as [-> | (a' & c & -> & Hc)].
  - reflexivity.
  - rewrite <- app_assoc. simpl.
    now apply replace_app_outside.
Qed.

(** A maximal run of the class gives one replacement. *)
Lemma replaceRuns_maximal_run (a run b : jsstring) :
  run <> [] ->
  forallb cls run = true ->
  endsIn cls a = false ->
  startsIn cls b = false ->
  replaceRuns cls rep (a ++ run ++ b)
    = replaceRuns cls rep a ++ rep ++ replaceRuns cls rep b.
Proof.
  intros Hne Hrun Ha Hb.
  rewrite replaceRuns_app by exact Ha. f_equal.
  destruct run as [|c t]; [congruence|].
  simpl in Hrun. apply andb_true_iff in Hrun as [Hc Ht].
  simpl. rewrite Hc. f_equal.
  rewrite afterMatch_run by exact Ht.
  now apply afterMatch_outside.
Qed.
End ReplaceFacts.

Section TrimFacts.

Lemma dropWhile_suffix (f : N -> bool) (s : jsstring) :
  exists pre, s = pre ++ dropWhile f s /\ forallb f pre = true.
Proof.
  induction s as [|c t (pre & E & Hpre)]; simpl.
  - now exists [].
  - destruct (f c) eqn:Hc.
    + exists (c :: pre). simpl. rewrite Hc, Hpre.
      split; [now rewrite <- E | reflexivity].
    + now exists [].
Qed.

Lemma dropWhile_starts (f : N -> bool) (s : jsstring) :
  startsIn f (dropWhile f s) = false.
Proof.
  induction s as [|c t IH]; simpl; [reflexivity|].
  destruct (f c) eqn:Hc; [exact IH | exact Hc].
Qed.

Lemma dropWhile_outside (f : N -> bool) (s : jsstring) :
  startsIn f s = false -> dropWhile f s = s.
Proof.
  destruct s as [|c t]; simpl; [reflexivity | now intros ->].
Qed.

Lemma trimEnd_prefix (s : jsstring) :
  exists suf, s = trimEnd s ++ suf /\ forallb isSpace suf = true.
Proof.
  induction s as [|c t (suf & E & Hsuf)]; simpl.
  - now exists [].
  - destruct (trimEnd t) as [|r0 r] eqn:Er.
    + destruct (isSpace c) eqn:Hc.
      * exists (c :: t). split; [reflexivity|].
        simpl in E. subst suf. simpl. now rewrite Hc.
      * exists t. split; [reflexivity|]. simpl in E. now subst suf.
    + exists suf. split; [|exact Hsuf]. simpl. now rewrite E at 1.
Qed.

Lemma trimEnd_starts (s : jsstring) :
  startsIn isSpace s = false -> startsIn isSpace (trimEnd s) = false.
Proof.
  destruct s as [|c t]; simpl; [reflexivity|].
  intros Hc. destruct (trimEnd t); [rewrite Hc|]; simpl; auto.
Qed.

Lemma trimEnd_snoc (s : jsstring) (c : N) :
  trimEnd (s ++ [c]) = if isSpace c then trimEnd s else s ++ [c].
Proof.
  induction s as [|x t IH]; simpl.
  - destruct (isSpace c); reflexivity.
  - rewrite IH. destruct (isSpace c); [reflexivity|].
    destruct (t ++ [c]) eqn:E; [|reflexivity].
    now destruct t.
Qed.

(** [trimEnd] drops the white space at the end: it is [dropWhile] on the
    reversed string. *)
Lemma trimEnd_rev (s : jsstring) :
  trimEnd s = rev (dropWhile isSpace (rev s)).
Proof.
  induction s as [|c t IH] using rev_ind; [reflexivity|].
  rewrite trimEnd_snoc, rev_app_distr. simpl.
  destruct (isSpace c); [exact IH|].
  simpl. now rewrite rev_involutive.
Qed.

Lemma trimEnd_ends (s : jsstring) : endsIn isSpace (trimEnd s) = false.
Proof.
  induction s as [|c t IH] using rev_ind; [reflexivity|].
  rewrite trimEnd_snoc. destruct (isSpace c) eqn:Hc; [exact IH|].
  unfold endsIn. rewrite rev_app_distr. simpl. exact Hc.
Qed.

Lemma trimEnd_fixed (s : jsstring) :
  endsIn isSpace s = false -> trimEnd s = s.
Proof.
  destruct s as [|c t] using rev_ind; [reflexivity|].
  unfold endsIn. rewrite rev_app_distr. simpl. intros Hc.
  now rewrite trimEnd_snoc, Hc.
Qed.

Lemma trim_trimmed (s : jsstring) : trimmed (trim s).
Proof.
  split.
  - apply trimEnd_starts, dropWhile_starts.
  - apply trimEnd_ends.
Qed.

Lemma trim_fixed (s : jsstring) : trimmed s -> trim s = s.
Proof.
  intros [H1 H2]. unfold trim, trimStart.
  rewrite dropWhile_outside by exact H1. now apply trimEnd_fixed.
Qed.

Lemma trim_idempotent (s : jsstring) : trim (trim s) = trim s.
Proof. apply trim_fixed, trim_trimmed. Qed.

(** [trim s] is [s] without a prefix and a suffix of white space. *)
Lemma trim_middle (s : jsstring) :
  exists pre suf,
    s = pre ++ trim s ++ suf
    /\ forallb isSpace pre = true /\ forallb isSpace suf = true.
Proof.
  destruct (dropWhile_suffix isSpace s) as (pre & E1 & H1).
  destruct (trimEnd_prefix (dropWhile isSpace s)) as (suf & E2 & H2).
  exists pre, suf. unfold trim, trimStart. now rewrite <- E2.
Qed.

Lemma trim_Forall (P : N -> Prop) (s : jsstring) :
  Forall P s -> Forall P (trim s).
Proof.
  intros H. destruct (trim_middle s) as (pre & suf & E & _).
  rewrite E in H. apply Forall_app in H as [_ H].
  now apply Forall_app in H as [H _].
Qed.

Lemma collapsed_app_l (a b : jsstring) :
  collapsed (a ++ b) = true -> collapsed a = true.
Proof.
  induction a as [|c t IH]; simpl; [reflexivity|].
  intros H. apply andb_true_iff in H as [H1 H2].
  rewrite (IH H2), andb_true_r.
  destruct (isSpace c); [|reflexivity].
  apply andb_true_iff in H1 as [H1 H3]. rewrite H1. simpl.
  destruct t; [reflexivity | exact H3].
Qed.

Lemma collapsed_app_r (a b : jsstring) :
  collapsed (a ++ b) = true -> collapsed b = true.
Proof.
  induction a as [|c t IH]; simpl; [auto|].
  intros H. apply andb_true_iff in H as [_ H2]. auto.
Qed.

Lemma trim_collapsed (s : jsstring) :
  collapsed s = true -> collapsed (trim s) = true.
Proof.
  intros H. destruct (trim_middle s) as (pre & suf & E & _).
  rewrite E in H. apply collapsed_app_r in H.
  now apply collapsed_app_l in H.
Qed.

Lemma space_is_space : isSpace 32 = true.
Proof. reflexivity. Qed.

Lemma collapse_collapsed (s : jsstring) :
  collapsed (replaceRuns isSpace (utf16 " ") s) = true
  /\ collapsed (afterMatch isSpace (utf16 " ") s) = true
  /\ startsIn isSpace (afterMatch isSpace (utf16 " ") s) = false.
Proof.
  change (utf16 " ") with [32].
  induction s as [|c t (IH1 & IH2 & IH3)]; simpl; [auto|].
  destruct (isSpace c) eqn:Hc.
  - repeat split; try assumption.
    change (negb (startsIn isSpace (afterMatch isSpace [32] t))
            && collapsed (afterMatch isSpace [32] t) = true).
    now rewrite IH2, IH3.
  - simpl. rewrite Hc, IH1. auto.
Qed.

Lemma collapsed_fixed (s : jsstring) :
  collapsed s = true -> replaceRuns isSpace (utf16 " ") s = s.
Proof.
  change (utf16 " ") with [32].
  induction s as [|c t IH]; simpl; [reflexivity|].
  intros H. apply andb_true_iff in H as [H1 H2].
  destruct (isSpace c) eqn:Hc.
  - apply andb_true_iff in H1 as [H1 H3].
    apply N.eqb_eq in H1. subst c.
    apply negb_true_iff in H3.
    rewrite afterMatch_outside by exact H3.
    now rewrite (IH H2).
  - now rewrite (IH H2).
Qed.
End TrimFacts.

Lemma fileSafe_shape (s : jsstring) :
  avoids isUnsafe (fileSafe s)
  /\ collapsed (fileSafe s) = true
  /\ trimmed (fileSafe s).
Proof.
  unfold fileSafe. split; [|split].
  - apply trim_Forall. apply replace_Forall.
    + repeat constructor.
    + intros c Hc _. revert c Hc. apply Forall_forall.
      apply replaceRuns_clean. repeat constructor.
  - apply trim_collapsed, collapse_collapsed.
  - apply trim_trimmed.
Qed.

Lemma fileSafe_fixed (s : jsstring) :
  avoids isUnsafe s -> collapsed s = true -> trimmed s -> fileSafe s = s.
Proof.
  intros H1 H2 H3. unfold fileSafe.
  rewrite (replaceRuns_avoids _ _ _ H1), (collapsed_fixed _ H2).
  now apply trim_fixed.
Qed.

(* ===================================================================== *)
(** ** File names *)
(* ===================================================================== *)

Lemma replaceUnsafe_ABC (x y : jsstring) :
  replaceRuns isUnsafe (utf16 "_") (x ++ utf16 "A/B:C" ++ y)
    = replaceRuns isUnsafe (utf16 "_") (x ++ utf16 "A_B_C" ++ y).
Proof.
  change (utf16 "A/B:C" ++ y) with (65 :: utf16 "/B:C" ++ y).
  change (utf16 "A_B_C" ++ y) with (65 :: utf16 "_B_C" ++ y).
  destruct (replace_app_outside isUnsafe (utf16 "_") x 65
              (utf16 "/B:C" ++ y) eq_refl) as [-> _].
  destruct (replace_app_outside isUnsafe (utf16 "_") x 65
              (utf16 "_B_C" ++ y) eq_refl) as [-> _].
  reflexivity.
Qed.

Lemma avoids_space_shape (s : jsstring) :
  avoids isSpace s -> trimmed s /\ collapsed s = true.
Proof.
  intros H. repeat split.
  - destruct H; [reflexivity | assumption].
  - unfold endsIn. apply Forall_rev in H.
    destruct H; [reflexivity | assumption].
  - induction H as [|c t Hc _ IH]; [reflexivity|].
    simpl. now rewrite Hc, IH.
Qed.

Lemma avoids_startsIn (cls : N -> bool) (w r : jsstring) :
  avoids cls w -> w <> [] -> startsIn cls (w ++ r) = false.
Proof. intros H Hne. destruct H; [congruence | assumption]. Qed.

Lemma avoids_endsIn (cls : N -> bool) (r w : jsstring) :
  avoids cls w -> w <> [] -> endsIn cls (r ++ w) = false.
Proof.
  intros H Hne. unfold endsIn. rewrite rev_app_distr.
  apply avoids_startsIn; [now apply Forall_rev|].
  intros E. apply Hne. apply (f_equal (@rev N)) in E.
  now rewrite rev_involutive in E.
Qed.

Lemma avoids_ends (cls : N -> bool) (w : jsstring) :
  avoids cls w -> endsIn cls w = false.
Proof.
  intros H. unfold endsIn. apply Forall_rev in H.
  destruct H; [reflexivity | assumption].
Qed.

Lemma blank_facts (sp : jsstring) :
  blank sp -> forallb isSpace sp = true /\ avoids isUnsafe sp.
Proof.
  induction 1 as [|c t [H1 H2] _ [IH1 IH2]]; [split; [reflexivity|constructor]|].
  split; [simpl; now rewrite H1 | now constructor].
Qed.

(** White space at the start, before a code unit that is not white space,
    collapses to one U+0020. *)
Lemma collapse_blank (sp x : jsstring) :
  forallb isSpace sp = true ->
  startsIn isSpace x = false ->
  replaceRuns isSpace (utf16 " ") (sp ++ x)
  = match sp with [] => [] | _ => utf16 " " end
    ++ replaceRuns isSpace (utf16 " ") x.
Proof.
  intros Hsp Hx. destruct sp as [|c t]; [reflexivity|].
  exact (replaceRuns_maximal_run isSpace (utf16 " ") [] (c :: t) x
           ltac:(discriminate) Hsp eq_refl Hx).
Qed.

(** [trim] removes the white space around a string that has none at its
    ends. *)
Lemma trim_padded (e1 m e2 : jsstring) :
  forallb isSpace e1 = true ->
  forallb isSpace e2 = true ->
  trimmed m -> m <> [] ->
  trim (e1 ++ m ++ e2) = m.
Proof.
  intros H1 H2 [Hs He] Hne. unfold trim, trimStart.
  assert (E1 : dropWhile isSpace (e1 ++ m ++ e2) = m ++ e2).
  { induction e1 as [|c t IH]; simpl.
    - apply dropWhile_outside. destruct m; [congruence | exact Hs].
    - simpl in H1. apply andb_true_iff in H1 as [Hc Ht].
      rewrite Hc. now apply IH. }
  rewrite E1. clear E1 H1.
  induction e2 as [|c t IH] using rev_ind.
  - rewrite app_nil_r. now apply trimEnd_fixed.
  - rewrite forallb_app in H2. apply andb_true_iff in H2 as [Ht Hc].
    simpl in Hc. rewrite andb_true_r in Hc.
    rewrite app_assoc, trimEnd_snoc, Hc. now apply IH.
Qed.

(** The name made of clean parts around the sample text, with white space
    before, inside and after. *)
Lemma fileSafe_padded (sp1 a sp b sp2 : jsstring) :
  blank sp1 -> blank sp -> blank sp2 -> sp <> [] ->
  clean a -> clean b -> b <> [] ->
  fileSafe (sp1 ++ a ++ utf16 "A/B:C" ++ sp ++ b ++ sp2)
  = a ++ utf16 "A_B_C" ++ utf16 " " ++ b.
Proof.
  intros B1 B B2 Hsp [Ha1 Ha2] [Hb1 Hb2] Hb.
  destruct (blank_facts _ B1) as [S1 U1].
  destruct (blank_facts _ B) as [S U].
  destruct (blank_facts _ B2) as [S2 U2].
  assert (HW1 : avoids isUnsafe (a ++ utf16 "A_B_C"))
    by (apply Forall_app; split; [exact Ha1 | repeat constructor]).
  assert (HW2 : avoids isSpace (a ++ utf16 "A_B_C"))
    by (apply Forall_app; split; [exact Ha2 | repeat constructor]).
  assert (HWne : a ++ utf16 "A_B_C" <> []) by (now destruct a).
  unfold fileSafe.
  replace (sp1 ++ a ++ utf16 "A/B:C" ++ sp ++ b ++ sp2)
    with ((sp1 ++ a) ++ utf16 "A/B:C" ++ sp ++ b ++ sp2)
    by now rewrite <- app_assoc.
  rewrite replaceUnsafe_ABC.
  rewrite (replaceRuns_avoids isUnsafe).
  2:{ unfold avoids. rewrite !Forall_app. repeat split; try assumption.
      repeat constructor. }
  replace ((sp1 ++ a) ++ utf16 "A_B_C" ++ sp ++ b ++ sp2)
    with (sp1 ++ (a ++ utf16 "A_B_C") ++ sp ++ b ++ sp2)
    by now rewrite <- !app_assoc.
  rewrite (collapse_blank sp1) by
    (try exact S1; now apply avoids_startsIn).
  rewrite (replaceRuns_maximal_run isSpace (utf16 " ") _ sp (b ++ sp2) Hsp S)
    by (try (now apply avoids_ends); now apply avoids_startsIn).
  rewrite (replaceRuns_avoids _ _ _ HW2).
  rewrite (replaceRuns_app isSpace (utf16 " ") b sp2)
    by now apply avoids_ends.
  rewrite (replaceRuns_avoids _ _ _ Hb2).
  rewrite <- (app_nil_r sp2) at 1.
  rewrite (collapse_blank sp2 []) by (try exact S2; reflexivity).
  cbn [replaceRuns]. rewrite app_nil_r.
  replace ((a ++ utf16 "A_B_C") ++ utf16 " " ++ b
           ++ match sp2 with [] => [] | _ :: _ => utf16 " " end)
    with ((a ++ utf16 "A_B_C" ++ utf16 " " ++ b)
          ++ match sp2 with [] => [] | _ :: _ => utf16 " " end)
    by now rewrite <- !app_assoc.
  apply trim_padded.
  - now destruct sp1.
  - now destruct sp2.
  - split.
    + rewrite app_assoc. now apply avoids_startsIn.
    + rewrite !app_assoc. now apply avoids_endsIn.
  - now destruct a.
Qed.

(** C7. Sanitizing a file name twice gives the same string as sanitizing
    it once: [fileSafe (fileSafe s) = fileSafe s] for every string [s]. *)
Theorem fileSafe_idempotent (s : jsstring) :
  fileSafe (fileSafe s) = fileSafe s.
Proof.
  destruct (fileSafe_shape s) as (H1 & H2 & H3).
  now apply fileSafe_fixed.
Qed.

Lemma replaceUnsafe_underscore (a b : jsstring) :
  endsIn isUnsafe a = false ->
  replaceRuns isUnsafe (utf16 "_") (a ++ utf16 "_" ++ b)
    = replaceRuns isUnsafe (utf16 "_") a ++ utf16 "_"
      ++ replaceRuns isUnsafe (utf16 "_") b.
Proof.
  intros Ha. rewrite replaceRuns_app by exact Ha. reflexivity.
Qed.

(** C10. A maximal run of consecutive unsafe characters (line feed and
    carriage return included) becomes one underscore, not one per
    character: when [run] is a non-empty string of unsafe characters, [a]
    does not end and [b] does not start with an unsafe character, the first
    replacement turns [a ++ run ++ b] into the replacement of [a], one
    underscore, and the replacement of [b], and the sanitized name is that
    of [a ++ "_" ++ b]. When moreover [a] and [b] hold neither an unsafe
    character nor white space, the sanitized name is exactly [a], one
    underscore, and [b]. In particular "A//B" gives "A_B" and not
    "A__B". *)
Theorem fileSafe_unsafe_run_one_underscore (a run b : jsstring) :
  run <> [] ->
  forallb isUnsafe run = true ->
  endsIn isUnsafe a = false ->
  startsIn isUnsafe b = false ->
  replaceRuns isUnsafe (utf16 "_") (a ++ run ++ b)
    = replaceRuns isUnsafe (utf16 "_") a ++ utf16 "_"
      ++ replaceRuns isUnsafe (utf16 "_") b
  /\ fileSafe (a ++ run ++ b) = fileSafe (a ++ utf16 "_" ++ b)
  /\ (clean a -> clean b -> fileSafe (a ++ run ++ b) = a ++ utf16 "_" ++ b)
  /\ isUnsafe 10 = true /\ isUnsafe 13 = true
  /\ fileSafe (utf16 "A//B") = utf16 "A_B"
  /\ fileSafe (utf16 "A//B") <> utf16 "A__B".
Proof.
  intros Hne Hrun Ha Hb.
  assert (E : replaceRuns isUnsafe (utf16 "_") (a ++ run ++ b)
              = replaceRuns isUnsafe (utf16 "_") a ++ utf16 "_"
                ++ replaceRuns isUnsafe (utf16 "_") b)
    by now apply replaceRuns_maximal_run.
  assert (F : fileSafe (a ++ run ++ b) = fileSafe (a ++ utf16 "_" ++ b))
    by (unfold fileSafe; now rewrite E, replaceUnsafe_underscore).
  split; [exact E|]. split; [exact F|]. split.
  - intros [Ha1 Ha2] [Hb1 Hb2]. rewrite F.
    assert (Hs : avoids isSpace (a ++ utf16 "_" ++ b))
      by (unfold avoids; rewrite !Forall_app; repeat split;
          try assumption; repeat constructor).
    destruct (avoids_space_shape _ Hs) as [T C].
    apply fileSafe_fixed; try assumption.
    unfold avoids. rewrite !Forall_app. repeat split; try assumption.
    repeat constructor.
  - repeat split; try reflexivity. discriminate.
Qed.

Lemma fileSafe_unsafe_run_one_underscore_witness :
  fileSafe (utf16 "A" ++ [47; 10; 13; 92] ++ utf16 "B")
    = utf16 "A" ++ utf16 "_" ++ utf16 "B".
Proof.
  destruct (fileSafe_unsafe_run_one_underscore (utf16 "A") [47; 10; 13; 92]
              (utf16 "B")) as (_ & _ & H & _).
  - discriminate.
  - reflexivity.
  - reflexivity.
  - reflexivity.
  - apply H; split; repeat constructor.
Defined.

(** C8. The mail has one attachment, named by the prefix "Заявка_", the
    sanitized club name and ".docx"; the club name is replaced by the
    placeholder "Заявка" when it is empty. The sanitized part holds no
    unsafe character, its only white space is single U+0020 between other
    characters, and it has none at either end. A club name containing
    "A/B:C" is sanitized as if it contained "A_B_C", and inner white space
    is collapsed: for a club made of white space, a part [a], "A/B:C",
    white space, a non-empty part [b] and white space, where [a] and [b]
    hold neither unsafe characters nor white space, the name is
    "Заявка_", [a], "A_B_C", one U+0020, [b] and ".docx". *)
Theorem attachment_filename (cfg : Config) (payload : Submission)
  (buf : Document) :
  map filename (attachments (emailDocx cfg payload buf))
    = [utf16 "Заявка_"
       ++ fileSafe (match club payload with
                    | [] => utf16 "Заявка"
                    | _ => club payload
                    end)
       ++ utf16 ".docx"]
  /\ (exists n,
        map filename (attachments (emailDocx cfg payload buf))
          = [utf16 "Заявка_" ++ n ++ utf16 ".docx"]
        /\ avoids isUnsafe n /\ collapsed n = true /\ trimmed n)
  /\ (club payload = [] ->
      map filename (attachments (emailDocx cfg payload buf))
        = [utf16 "Заявка_Заявка.docx"])
  /\ (forall sp1 a sp b sp2,
        blank sp1 -> blank sp -> blank sp2 -> sp <> [] ->
        clean a -> clean b -> b <> [] ->
        club payload = sp1 ++ a ++ utf16 "A/B:C" ++ sp ++ b ++ sp2 ->
        map filename (attachments (emailDocx cfg payload buf))
          = [utf16 "Заявка_" ++ a ++ utf16 "A_B_C" ++ utf16 " " ++ b
             ++ utf16 ".docx"])
  /\ (forall x y,
        fileSafe (x ++ utf16 "A/B:C" ++ y) = fileSafe (x ++ utf16 "A_B_C" ++ y))
  /\ fileSafe (utf16 "A/B:C") = utf16 "A_B_C"
  /\ fileSafe (utf16 "A/B:C" ++ [32; 9; 32] ++ utf16 "D") = utf16 "A_B_C D".
Proof.
  split; [|split; [|split; [|split; [|split; [|split]]]]].
  - reflexivity.
  - eexists. split; [reflexivity|]. apply fileSafe_shape.
  - intros E. simpl. unfold docxFileName. now rewrite E.
  - intros sp1 a sp b sp2 B1 B B2 Hsp Ha Hb Hne E.
    cbn [attachments emailDocx map filename]. unfold docxFileName.
    replace (orElse (club payload) (utf16 "Заявка")) with (club payload).
    + rewrite E, (fileSafe_padded sp1 a sp b sp2) by assumption.
      now rewrite <- !app_assoc.
    + rewrite E. destruct sp1; [|reflexivity]. now destruct a.
  - intros x y. unfold fileSafe. now rewrite replaceUnsafe_ABC.
  - reflexivity.
  - reflexivity.
Qed.

Lemma attachment_filename_witness :
  map filename
    (attachments
       (emailDocx (mkConfig [] [])
          (mkSubmission [] []
             ([32; 9] ++ utf16 "X" ++ utf16 "A/B:C" ++ [32; 9; 32]
              ++ utf16 "D" ++ [32])
             [] [] [] [] [])
          (buildDocx (mkSubmission [] [] [] [] [] [] [] []))))
    = [utf16 "Заявка_" ++ utf16 "X" ++ utf16 "A_B_C" ++ utf16 " " ++ utf16 "D"
       ++ utf16 ".docx"].
Proof.
  apply (attachment_filename (mkConfig [] [])
           (mkSubmission [] []
              ([32; 9] ++ utf16 "X" ++ utf16 "A/B:C" ++ [32; 9; 32]
               ++ utf16 "D" ++ [32])
              [] [] [] [] [])
           (buildDocx (mkSubmission [] [] [] [] [] [] [] [])))
    with (sp1 := [32; 9]) (sp := [32; 9; 32]) (sp2 := [32]).
  - repeat constructor.
  - repeat constructor.
  - repeat constructor.
  - discriminate.
  - split; repeat constructor.
  - split; repeat constructor.
  - discriminate.
  - reflexivity.
Defined.

(* ===================================================================== *)
(** ** The notification *)
(* ===================================================================== *)

Lemma orElse_dash (s : jsstring) : orElse s (utf16 "-") = orDash s.
Proof. now destruct s. Qed.

Lemma judgeLine_cases (data : Submission) :
  judgeLine data = judgeAndCategory (judge data) (judgeCategory data).
Proof.
  unfold judgeLine, judgeAndCategory.
  destruct (judge data) as [|a j], (judgeCategory data) as [|b c];
    reflexivity.
Qed.


(* ===================================================================== *)
(** ** The roster log *)
(* ===================================================================== *)

Lemma eqb_refl (a : jsstring) : JsString.eqb a a = true.
Proof.
  induction a as [|x a IH]; simpl; [reflexivity|].
  now rewrite N.eqb_refl, IH.
Qed.

Section LogFacts.

Lemma addRows_fold (A : Type) (f : A -> list (jsstring * Cell))
  (l : list A) (ws : Worksheet) :
  fold_left (fun w p => addRow (f p) w) l ws
    = mkWorksheet (sheetName ws) (columns ws)
        (rows ws ++ map (fun p => map (cellFor (f p)) (columns ws)) l).
Proof.
  revert ws. induction l as [|p l IH]; intros ws; simpl.
  - rewrite app_nil_r. now destruct ws.
  - rewrite IH. simpl. now rewrite <- app_assoc.
Qed.

Lemma addSubmission_sheet (ts : jsstring) (payload : Submission)
  (ws : Worksheet) :
  sheetName (addSubmission ts payload ws) = sheetName ws
  /\ columns (addSubmission ts payload ws) = columns ws.
Proof.
  unfold addSubmission. destruct (participants payload) as [|p ps].
  - now split.
  - now rewrite addRows_fold.
Qed.

(** The objects given to [addRow], in order. *)
Lemma addSubmission_rows (ts : jsstring) (payload : Submission)
  (ws : Worksheet) :
  exists objs,
    rows (addSubmission ts payload ws)
    = rows ws ++ map (fun obj => map (cellFor obj) (columns ws)) objs.
Proof.
  unfold addSubmission. destruct (participants payload) as [|p ps].
  - now exists [commonFields ts payload].
  - exists (map (fun q => commonFields ts payload ++ participantFields q)
              (p :: ps)).
    rewrite addRows_fold. cbn [rows]. now rewrite map_map.
Qed.

(** With the keys as [ensureWorkbook] declares them, the rows carry the
    fields of the submission and of each participant. *)
Lemma addSubmission_with_keys (ts : jsstring) (payload : Submission)
  (rs : list (list Cell)) :
  rows (addSubmission ts payload (mkWorksheet sheetTitle submissionColumns rs))
  = rs ++ match participants payload with
          | [] => [submissionCells ts payload ++ repeat Blank 6]
          | ps => map (fun p => submissionCells ts payload
                                ++ participantCells p) ps
          end.
Proof.
  unfold addSubmission. destruct (participants payload) as [|p ps].
  - reflexivity.
  - rewrite addRows_fold. reflexivity.
Qed.

Lemma keyless_row (obj : list (jsstring * Cell)) (cols : list Column) :
  Forall (fun c => key c = None) cols ->
  hasValues (map (cellFor obj) cols) = false.
Proof.
  induction 1 as [|c cols Hc _ IH]; [reflexivity|].
  simpl. unfold cellFor at 1. now rewrite Hc.
Qed.

Lemma keyless_rows (objs : list (list (jsstring * Cell)))
  (cols : list Column) :
  Forall (fun c => key c = None) cols ->
  filter hasValues (map (fun obj => map (cellFor obj) cols) objs) = [].
Proof.
  intros H. induction objs as [|obj objs IH]; [reflexivity|].
  simpl. now rewrite (keyless_row obj cols H).
Qed.

(** On a sheet read from a file, the rows [appendToExcel] adds are not
    stored. *)
Lemma persistSheet_addSubmission (ts : jsstring) (payload : Submission)
  (ws : Worksheet) :
  keyless ws ->
  persistSheet (addSubmission ts payload ws) = persistSheet ws.
Proof.
  intros Hk. unfold persistSheet.
  destruct (addSubmission_sheet ts payload ws) as [-> ->].
  destruct (addSubmission_rows ts payload ws) as [objs ->].
  now rewrite filter_app, (keyless_rows objs _ Hk), app_nil_r.
Qed.

Lemma persistSheet_keyless (ws : Worksheet) : keyless (persistSheet ws).
Proof.
  unfold keyless, persistSheet. cbn [columns].
  apply Forall_map. now apply Forall_forall.
Qed.

Lemma filter_hasValues_twice (rs : list (list Cell)) :
  filter hasValues (filter hasValues rs) = filter hasValues rs.
Proof.
  induction rs as [|r rs IH]; [reflexivity|]. simpl.
  destruct (hasValues r) eqn:E; [|exact IH]. simpl. now rewrite E, IH.
Qed.

Lemma persistSheet_twice (ws : Worksheet) :
  persistSheet (persistSheet ws) = persistSheet ws.
Proof.
  unfold persistSheet. cbn [sheetName columns rows].
  now rewrite map_map, filter_hasValues_twice.
Qed.

Lemma persist_twice (wb : Workbook) : persist (persist wb) = persist wb.
Proof.
  unfold persist. rewrite map_map. apply map_ext. apply persistSheet_twice.
Qed.

Lemma persist_withWorksheet (n ts : jsstring) (payload : Submission)
  (wb : Workbook) :
  Forall keyless wb ->
  persist (withWorksheet n (addSubmission ts payload) wb)
  = ensureSheet n (persist wb).
Proof.
  unfold ensureSheet.
  induction 1 as [|ws wb Hk _ IH]; simpl.
  - rewrite persistSheet_addSubmission by constructor. reflexivity.
  - destruct (JsString.eqb (sheetName ws) n); simpl.
    + now rewrite persistSheet_addSubmission.
    + now rewrite IH.
Qed.

Lemma persist_keyless (wb : Workbook) : Forall keyless (persist wb).
Proof.
  unfold persist. apply Forall_map. apply Forall_forall.
  intros ws _. apply persistSheet_keyless.
Qed.

Lemma persist_ensureSheet (n : jsstring) (wb : Workbook) :
  persist (ensureSheet n wb) = ensureSheet n (persist wb).
Proof.
  unfold ensureSheet. induction wb as [|ws wb IH]; simpl; [reflexivity|].
  destruct (JsString.eqb (sheetName ws) n); simpl; [reflexivity|].
  now rewrite IH.
Qed.

Lemma getWorksheet_ensureSheet (n : jsstring) (wb : Workbook) :
  getWorksheet n (ensureSheet n wb)
  = Some match getWorksheet n wb with
         | Some ws => ws
         | None => mkWorksheet n [] []
         end.
Proof.
  unfold ensureSheet. induction wb as [|ws wb IH]; simpl.
  - now rewrite eqb_refl.
  - destruct (JsString.eqb (sheetName ws) n) eqn:E; simpl; now rewrite E.
Qed.

(** What [appendToExcel] does to the file does not depend on the
    submission: an absent file becomes the empty log, a workbook file is
    written back as it was read, with the sheet of submissions added
    empty when it is missing, and an unreadable file makes it throw. *)
Lemma appendToExcel_eq (now : DateTime) (payload : Submission)
  (fs : FileSystem) :
  appendToExcel now payload fs
  = match fs with
    | NoFile => Ok freshLog
    | XlsxFile wb => Ok (XlsxFile (ensureSheet sheetTitle (persist wb)))
    | OtherFile => Throw IOError
    end.
Proof.
  destruct fs as [|wb|]; [| |reflexivity].
  - unfold appendToExcel, openWorkbook, ensureWorkbook, writeFile.
    cbn [existsSync readFile bind].
    rewrite persist_withWorksheet by apply persist_keyless.
    reflexivity.
  - unfold appendToExcel, openWorkbook, writeFile.
    cbn [existsSync readFile bind].
    rewrite persist_withWorksheet by apply persist_keyless.
    now rewrite persist_twice.
Qed.

Lemma logRows_ensureSheet (wb : Workbook) :
  logRows (XlsxFile (ensureSheet sheetTitle (persist wb)))
  = logRows (XlsxFile wb).
Proof.
  unfold logRows.
  rewrite persist_ensureSheet, persist_twice, getWorksheet_ensureSheet.
  now destruct (getWorksheet sheetTitle (persist wb)).
Qed.

Lemma appendToExcel_log (now : DateTime) (payload : Submission)
  (fs : FileSystem) :
  usable fs ->
  exists fs',
    appendToExcel now payload fs = Ok fs' /\ logRows fs' = logRows fs.
Proof.
  intros Hu. rewrite appendToExcel_eq. destruct fs as [|wb|].
  - now exists freshLog.
  - eexists. split; [reflexivity | apply logRows_ensureSheet].
  - now destruct Hu.
Qed.
End LogFacts.

(** C2. Appending a submission does not add its rows to the log. The
    workbook is read from the file before the rows are added, a workbook
    read from a file has no column keys, so [addRow] fills no cell, and a
    row without a value is not written: for every submission and every
    log that is absent or readable, [appendToExcel] returns and the file
    holds the data rows it held before; on an absent log that is the
    empty log. With the keys [ensureWorkbook] declares, the same calls
    would add one row per participant, in order, each with the timestamp,
    the seven fields of the submission and the six of the participant,
    and one row with blank participant cells for no participant. *)
Theorem appendToExcel_adds_no_row (now : DateTime) (payload : Submission)
  (fs : FileSystem) :
  usable fs ->
  (exists fs',
     appendToExcel now payload fs = Ok fs' /\ logRows fs' = logRows fs)
  /\ appendToExcel now payload NoFile = Ok freshLog
  /\ logRows freshLog = []
  /\ (forall rs,
        rows (addSubmission (format_timestamp now) payload
                (mkWorksheet sheetTitle submissionColumns rs))
        = rs ++ match participants payload with
                | [] =>
                    [submissionCells (format_timestamp now) payload
                     ++ [Blank; Blank; Blank; Blank; Blank; Blank]]
                | ps =>
                    map (fun p =>
                           submissionCells (format_timestamp now) payload
                           ++ participantCells p) ps
                end).
Proof.
  intros Hu. split; [now apply appendToExcel_log|].
  split; [apply appendToExcel_eq|]. split; [reflexivity|].
  intros rs. apply addSubmission_with_keys.
Qed.

(** C5. Where the code makes sure the log is there (the existence test
    followed by [ensureWorkbook], in the Excel download route and at the
    opening of [appendToExcel]), an absent log is created with the fixed
    14 column headers and no data row, a file that exists is left as it
    is, and doing it twice is the same as doing it once. *)
Theorem ensure_log_idempotent (w : World) (fs : FileSystem)
  (ob : list Mail) :
  fst (downloadExcel (mkWorld NoFile ob)) = mkWorld freshLog ob
  /\ (exists wb, openWorkbook NoFile = Ok (freshLog, wb))
  /\ (exists cols,
        freshLog = XlsxFile [mkWorksheet sheetTitle cols []]
        /\ map header cols
           = [ utf16 "Timestamp"; utf16 "Date (on form)"; utf16 "City";
               utf16 "Club/School"; utf16 "Contacts"; utf16 "Coach (FIO)";
               utf16 "Judge (FIO)"; utf16 "Judge Category";
               utf16 "Participant #"; utf16 "Participant Name";
               utf16 "Birth Year"; utf16 "Has Rank"; utf16 "Performing Rank";
               utf16 "Medical Visa" ]
        /\ List.length cols = 14%nat)
  /\ logRows freshLog = []
  /\ (fs <> NoFile ->
      fst (downloadExcel (mkWorld fs ob)) = mkWorld fs ob
      /\ forall fs1 wb, openWorkbook fs = Ok (fs1, wb) -> fs1 = fs)
  /\ fst (downloadExcel (fst (downloadExcel w))) = fst (downloadExcel w).
Proof.
  split; [reflexivity|]. split; [eexists; reflexivity|].
  split; [eexists; repeat split|]. split; [reflexivity|]. split.
  - intros Hfs. destruct fs as [|wb|]; try congruence.
    + split; [reflexivity|]. intros fs1 wb1 [= <- _]. reflexivity.
    + split; [reflexivity|]. discriminate.
  - destruct w as [[|wb0|] ob0]; reflexivity.
Qed.

Lemma ensure_log_idempotent_witness :
  fst (downloadExcel
         (mkWorld (XlsxFile [mkWorksheet sheetTitle [] [[Text (utf16 "x")]]])
            []))
  = mkWorld (XlsxFile [mkWorksheet sheetTitle [] [[Text (utf16 "x")]]]) [].
Proof.
  apply (ensure_log_idempotent (mkWorld NoFile [])
           (XlsxFile [mkWorksheet sheetTitle [] [[Text (utf16 "x")]]]) []).
  discriminate.
Defined.

(** [ensureWorkbook] itself does not look at the file: called on an
    existing log it would write the empty one over it. Both callers test
    for the file first. *)
Lemma ensureWorkbook_overwrites (fs : FileSystem) :
  ensureWorkbook fs = freshLog.
Proof. reflexivity. Qed.

(* ===================================================================== *)
(** ** The normalizer *)
(* ===================================================================== *)

Lemma bind_Ok (A B : Type) (c : result A) (k : A -> result B) (b : B) :
  bind c k = Ok b -> exists a, c = Ok a /\ k a = Ok b.
Proof. destruct c as [a|e]; simpl; [eauto | discriminate]. Qed.

Ltac bind_inv H :=
  let a := fresh "x" in
  let E := fresh "E" in
  apply bind_Ok in H as (a & E & H).

Section SanitizeFacts.
Variable number : Type.
Variable numberToString : number -> jsstring.

Local Abbreviation ToString := (ToString numberToString).
Local Abbreviation pick := (pick numberToString).
Local Abbreviation pickProp := (pickProp numberToString).
Local Abbreviation sanitizeParticipant :=
  (sanitizeParticipant numberToString).
Local Abbreviation mapParticipants := (mapParticipants numberToString).
Local Abbreviation sanitizeSubmission := (sanitizeSubmission numberToString).

Lemma ToString_convertible (v : value number) :
  if convertible v then exists s, ToString v = Ok s
  else ToString v = Throw TypeError.
Proof.
  induction v as [| |b|n|s|elems IH|props] using value_nested_ind;
    simpl; eauto.
  - destruct b; eauto.
  - induction IH as [|x rest Hx _ IHrest]; simpl; [eauto|].
    assert (Hx' : if convertible x
                  then exists s, match x with
                                 | VUndefined | VNull => Ok []
                                 | _ => ToString x
                                 end = Ok s
                  else match x with
                       | VUndefined | VNull => Ok []
                       | _ => ToString x
                       end = Throw TypeError).
    { destruct x; simpl in *; eauto. }
    clear Hx. destruct (convertible x); simpl.
    + destruct Hx' as [s ->]. simpl.
      destruct rest as [|y rest']; [simpl; eauto|].
      destruct (forallb convertible (y :: rest')).
      * destruct IHrest as [r ->]. simpl. eauto.
      * now rewrite IHrest.
    + now rewrite Hx'.
  - destruct (lookup _ props); eauto.
Qed.

Lemma pick_convertible (v : value number) :
  if convertible v then exists s, pick v = Ok s
  else pick v = Throw TypeError.
Proof.
  pose proof (ToString_convertible v) as H.
  destruct v; try (simpl; eauto; fail); unfold pick;
    (destruct (convertible _);
     [destruct H as [s H] | ]; rewrite H; simpl; eauto).
Qed.

Lemma pickProp_fieldOk (o : value number) (k : string) :
  if fieldOk o k then exists s, pickProp o k = Ok s
  else exists e, pickProp o k = Throw e.
Proof.
  unfold fieldOk, pickProp.
  destruct (getProp o (utf16 k)) as [v|e]; simpl; [|eauto].
  pose proof (pick_convertible v) as H.
  destruct (convertible v); eauto.
Qed.

Lemma pick_trimmed (v : value number) (s : jsstring) :
  pick v = Ok s -> trimmed s.
Proof.
  assert (T0 : trimmed []) by (split; reflexivity).
  unfold pick. destruct v; try (intros [= <-]; exact T0);
    intros H; bind_inv H; injection H as <-; apply trim_trimmed.
Qed.

Lemma pickProp_trimmed (o : value number) (k : string) (s : jsstring) :
  pickProp o k = Ok s -> trimmed s.
Proof.
  unfold pickProp. intros H. bind_inv H. now apply pick_trimmed in H.
Qed.

Lemma pickProp_missing (o : value number) (k : string) :
  getProp o (utf16 k) = Ok VUndefined \/ getProp o (utf16 k) = Ok VNull ->
  pickProp o k = Ok [].
Proof. unfold pickProp. now intros [-> | ->]. Qed.

Lemma pickProp_string (o : value number) (k : string) (x : jsstring) :
  getProp o (utf16 k) = Ok (VString x) -> pickProp o k = Ok (trim x).
Proof. unfold pickProp. now intros ->. Qed.

Lemma sanitizeParticipant_inv (p : value number) (i : N) (q : Participant) :
  sanitizeParticipant p i = Ok q ->
  idx q = i + 1
  /\ pickProp p "name" = Ok (name q)
  /\ pickProp p "birthYear" = Ok (birthYear q)
  /\ pickProp p "hasRank" = Ok (hasRank q)
  /\ pickProp p "performingRank" = Ok (performingRank q)
  /\ pickProp p "medicalVisa" = Ok (medicalVisa q).
Proof.
  unfold sanitizeParticipant. intros H.
  do 5 bind_inv H. injection H as <-. simpl. tauto.
Qed.

Lemma sanitizeParticipant_ok (p : value number) (i : N) :
  if participantOk p then exists q, sanitizeParticipant p i = Ok q
  else exists e, sanitizeParticipant p i = Throw e.
Proof.
  unfold participantOk, sanitizeParticipant.
  repeat match goal with
         | |- context [fieldOk p ?k] =>
             let H := fresh "H" in
             pose proof (pickProp_fieldOk p k) as H;
             destruct (fieldOk p k);
             [destruct H as [? ->] | destruct H as [? ->]];
             simpl; eauto
         end.
Qed.

Lemma mapParticipants_ok (arr : list (value number)) (i : N) :
  if forallb participantOk arr then exists qs, mapParticipants i arr = Ok qs
  else exists e, mapParticipants i arr = Throw e.
Proof.
  revert i. induction arr as [|p arr IH]; intros i; simpl; [eauto|].
  pose proof (sanitizeParticipant_ok p i) as Hp.
  destruct (participantOk p); simpl.
  - destruct Hp as [q ->]. simpl. specialize (IH (i + 1)).
    destruct (forallb participantOk arr).
    + destruct IH as [qs ->]. simpl. eauto.
    + destruct IH as [e ->]. simpl. eauto.
  - destruct Hp as [e ->]. simpl. eauto.
Qed.

Lemma mapParticipants_inv (arr : list (value number)) (i : N)
  (qs : list Participant) :
  mapParticipants i arr = Ok qs ->
  Forall2 (fun p q => exists j, sanitizeParticipant p j = Ok q) arr qs
  /\ map idx qs
     = map (fun k => i + N.of_nat k) (seq 1 (List.length arr)).
Proof.
  revert i qs. induction arr as [|p arr IH]; intros i qs; simpl.
  - intros [= <-]. split; constructor.
  - intros H. do 2 bind_inv H. injection H as <-.
    destruct (IH _ _ E0) as [IH1 IH2]. split.
    + constructor; eauto.
    + cbn [map]. apply sanitizeParticipant_inv in E as [-> _].
      rewrite IH2. f_equal; try lia.
      rewrite <- (seq_shift (List.length arr) 1), map_map.
      apply map_ext. intros k. lia.
Qed.

Lemma mapParticipants_positions (arr : list (value number))
  (qs : list Participant) :
  mapParticipants 0 arr = Ok qs ->
  List.length qs = List.length arr
  /\ map idx qs = positions (List.length qs).
Proof.
  intros H. apply mapParticipants_inv in H as [H1 H2].
  apply Forall2_length in H1. split; [congruence|].
  rewrite H2, <- H1. unfold positions. apply map_ext. intros k. lia.
Qed.

Lemma sanitizeSubmission_inv (now : DateTime) (b : value number)
  (s : Submission) :
  sanitizeSubmission now b = Ok s ->
  (exists d, pickProp b "date" = Ok d
             /\ date s = orElse d (format_DD_MM_YYYY now))
  /\ pickProp b "city" = Ok (city s)
  /\ pickProp b "club" = Ok (club s)
  /\ pickProp b "contacts" = Ok (contacts s)
  /\ pickProp b "coach" = Ok (coach s)
  /\ pickProp b "judge" = Ok (judge s)
  /\ pickProp b "judgeCategory" = Ok (judgeCategory s)
  /\ exists ps, getProp b (utf16 "participants") = Ok ps
                /\ match ps with
                   | VArray arr => mapParticipants 0 arr
                   | _ => Ok []
                   end = Ok (participants s).
Proof.
  unfold sanitizeSubmission. intros H.
  do 9 bind_inv H. injection H as <-. simpl.
  repeat split; eauto.
Qed.

Lemma sanitizeSubmission_idx (now : DateTime) (b : value number)
  (s : Submission) :
  sanitizeSubmission now b = Ok s ->
  map idx (participants s) = positions (List.length (participants s))
  /\ forall arr, getProp b (utf16 "participants") = Ok (VArray arr) ->
                 List.length (participants s) = List.length arr.
Proof.
  intros H. apply sanitizeSubmission_inv in H.
  destruct H as (_ & _ & _ & _ & _ & _ & _ & ps & Hps & Hmap).
  destruct ps as [| | | | |arr|];
    try (injection Hmap as <-; split; [reflexivity|];
         intros arr Harr; congruence).
  apply mapParticipants_positions in Hmap as [H1 H2].
  split; [exact H2|]. intros arr' Harr. congruence.
Qed.
End SanitizeFacts.

Section SanitizeTotality.
Variable number : Type.
Variable numberToString : number -> jsstring.

(** [sanitizeSubmission] returns exactly on the bodies of [bodyOk], and
    throws on the others. *)
Lemma sanitizeSubmission_ok (now : DateTime) (b : value number) :
  if bodyOk b then exists s, sanitizeSubmission numberToString now b = Ok s
  else exists e, sanitizeSubmission numberToString now b = Throw e.
Proof.
  unfold bodyOk, sanitizeSubmission.
  repeat match goal with
         | |- context [fieldOk b ?k] =>
             let H := fresh "H" in
             pose proof (pickProp_fieldOk number numberToString b k) as H;
             destruct (fieldOk b k);
             [destruct H as [? ->] | destruct H as [? ->]];
             simpl; eauto
         end.
  destruct (getProp b _) as [ps|e]; simpl; eauto.
  destruct ps as [| | | | |arr|]; simpl; eauto.
  pose proof (mapParticipants_ok number numberToString arr 0) as H.
  destruct (forallb participantOk arr); destruct H as [? ->]; simpl; eauto.
Qed.

(** What a returned record holds: trimmed strings, and no participant
    when the [participants] field is not an array. *)
Lemma sanitizeSubmission_fields (now : DateTime) (b : value number)
  (s : Submission) :
  sanitizeSubmission numberToString now b = Ok s ->
  trimmed (city s) /\ trimmed (club s) /\ trimmed (contacts s)
  /\ trimmed (coach s) /\ trimmed (judge s) /\ trimmed (judgeCategory s)
  /\ Forall (fun q => trimmed (name q) /\ trimmed (birthYear q)
                      /\ trimmed (hasRank q) /\ trimmed (performingRank q)
                      /\ trimmed (medicalVisa q)) (participants s)
  /\ ((forall arr, getProp b (utf16 "participants") <> Ok (VArray arr)) ->
      participants s = []).
Proof.
  intros H. apply sanitizeSubmission_inv in H.
  destruct H as (_ & H1 & H2 & H3 & H4 & H5 & H6 & ps & Hps & Hmap).
  repeat (split; [eapply pickProp_trimmed; eassumption|]).
  split.
  - destruct ps as [| | | | |arr|];
      try (injection Hmap as <-; constructor).
    apply mapParticipants_inv in Hmap as [Hall _].
    clear Hps. induction Hall as [|p q arr qs [j Hq] _ IH]; constructor;
      [|exact IH].
    apply sanitizeParticipant_inv in Hq as (_ & Q1 & Q2 & Q3 & Q4 & Q5).
    repeat split; eapply pickProp_trimmed; eassumption.
  - intros Hno. destruct ps as [| | | | |arr|];
      try (injection Hmap as <-; reflexivity).
    now destruct (Hno arr).
Qed.
End SanitizeTotality.

(** C1. Normalization is not total on request bodies: a participant entry
    that is [null] makes [sanitizeSubmission] throw a [TypeError] when it
    reads the entry's [name], and the submit route answers with status
    500 and changes nothing. An object field with an own [toString]
    property throws as well. *)
Theorem sanitizeSubmission_null_participant_throws (number : Type)
  (numberToString : number -> jsstring) (cfg : Config) (sendMail : Transport)
  (t1 t2 : DateTime) (w : World) :
  sanitizeSubmission numberToString t1
    (VObject [(utf16 "participants", VArray [VNull])])
    = Throw TypeError
  /\ submit numberToString cfg sendMail t1 t2
       (VObject [(utf16 "participants", VArray [VNull])]) w
     = (w, JsonError 500
             (utf16 "Не удалось сохранить и/или отправить письмо"))
  /\ sanitizeSubmission numberToString t1
       (VObject [(utf16 "club", VObject [(utf16 "toString", VNull)])])
     = Throw TypeError.
Proof. repeat split. Qed.

(* ===================================================================== *)
(** ** The rendered document *)
(* ===================================================================== *)

Lemma orElse_empty (s : jsstring) : orElse s [] = s.
Proof. now destruct s. Qed.

Lemma participantRows_eq (data : Submission) :
  participantRows (buildDocx data) = mapi participantRow 0 (rowSource data).
Proof. reflexivity. Qed.

Lemma mapi_length (A B : Type) (f : A -> N -> B) (l : list A) (i : N) :
  List.length (mapi f i l) = List.length l.
Proof.
  revert i. induction l as [|x l IH]; intros i; simpl; [reflexivity|].
  now rewrite IH.
Qed.

Lemma participantRow_texts (q : Participant) (i : N) :
  map cellText (participantRow (Some q) i) = participantTexts q.
Proof.
  unfold participantRow, participantTexts, cellText. simpl.
  now rewrite !orElse_empty, !app_nil_r.
Qed.

Lemma mapi_rows_texts (ps : list Participant) (i : N) :
  map (map cellText) (mapi participantRow i (map Some ps))
    = map participantTexts ps.
Proof.
  revert i. induction ps as [|q ps IH]; intros i; [reflexivity|].
  cbn [map mapi]. now rewrite participantRow_texts, IH.
Qed.

Lemma buildDocx_texts (data : Submission) :
  participants data <> [] ->
  participantTableTexts (buildDocx data)
    = map participantTexts (participants data).
Proof.
  intros Hne. unfold participantTableTexts.
  rewrite participantRows_eq. unfold rowSource.
  destruct (participants data) as [|q ps] eqn:E; [congruence|].
  apply mapi_rows_texts.
Qed.

(** C3. The document of a submission without participants has exactly 8
    body rows in its participant table, numbered 1 to 8 and otherwise
    blank. The document of a submission with N >= 1 participants has
    exactly N body rows, in the order of the participants, each showing
    the participant's ordinal and five fields. A field that the request
    leaves out (or gives as [null]) is normalized to the empty string and
    shown as the empty string. *)
Theorem buildDocx_participant_rows (data : Submission) :
  (participants data = [] ->
   List.length (participantRows (buildDocx data)) = 8%nat
   /\ participantTableTexts (buildDocx data) = map blankTexts (positions 8))
  /\ (participants data <> [] ->
      List.length (participantRows (buildDocx data))
        = List.length (participants data)
      /\ participantTableTexts (buildDocx data)
         = map participantTexts (participants data))
  /\ (forall (number : Type) (numberToString : number -> jsstring)
             (p : value number) (i j : N) (q : Participant)
             (k : string) (column : nat),
        sanitizeParticipant numberToString p i = Ok q ->
        In (k, column)
           [ ("name"%string, 1%nat); ("birthYear"%string, 2%nat);
             ("hasRank"%string, 3%nat); ("performingRank"%string, 4%nat);
             ("medicalVisa"%string, 5%nat) ] ->
        getProp p (utf16 k) = Ok VUndefined \/ getProp p (utf16 k) = Ok VNull ->
        nth column (map cellText (participantRow (Some q) j)) (utf16 "?")
          = []).
Proof.
  split; [|split].
  - intros E. unfold participantTableTexts.
    rewrite participantRows_eq. unfold rowSource. rewrite E.
    split; reflexivity.
  - intros Hne. split; [|now apply buildDocx_texts].
    rewrite participantRows_eq, mapi_length. unfold rowSource.
    destruct (participants data) as [|q ps]; [congruence|].
    now rewrite length_map.
  - intros number numberToString p i j q k column Hq Hk Hmissing.
    rewrite participantRow_texts.
    apply (pickProp_missing number numberToString) in Hmissing.
    apply sanitizeParticipant_inv in Hq as (_ & Q1 & Q2 & Q3 & Q4 & Q5).
    simpl in Hk.
    repeat (destruct Hk as [[= <- <-] | Hk];
            [simpl; congruence |]).
    contradiction.
Qed.

Lemma buildDocx_participant_rows_witness :
  participantTableTexts (buildDocx (mkSubmission [] [] [] [] [] [] [] []))
    = map blankTexts (positions 8)
  /\ participantTableTexts
       (buildDocx
          (mkSubmission [] [] [] [] [] [] []
             [ mkParticipant 1 (utf16 "Петрова А.") (utf16 "2012") [] [] [];
               mkParticipant 2 [] [] [] [] [] ]))
     = [ [utf16 "1"; utf16 "Петрова А."; utf16 "2012"; []; []; []];
         [utf16 "2"; []; []; []; []; []] ].
Proof.
  split.
  - apply (buildDocx_participant_rows (mkSubmission [] [] [] [] [] [] [] [])).
    reflexivity.
  - apply (buildDocx_participant_rows
             (mkSubmission [] [] [] [] [] [] []
                [ mkParticipant 1 (utf16 "Петрова А.") (utf16 "2012") [] [] [];
                  mkParticipant 2 [] [] [] [] [] ])).
    discriminate.
Defined.

(* ===================================================================== *)
(** ** Ordinals and dates through the pipeline *)
(* ===================================================================== *)

Lemma eqb_eq (a b : jsstring) : JsString.eqb a b = true -> a = b.
Proof.
  revert b. induction a as [|x a IH]; intros [|y b]; simpl;
    try discriminate; [reflexivity|].
  intros H. apply andb_true_iff in H as [H1 H2].
  apply N.eqb_eq in H1. now rewrite H1, (IH _ H2).
Qed.

Lemma check_below (P : N -> bool) (k : nat) :
  forallb P (map N.of_nat (seq 0 k)) = true ->
  forall n, n < N.of_nat k -> P n = true.
Proof.
  intros H n Hn. rewrite forallb_forall in H. apply H.
  apply in_map_iff. exists (N.to_nat n). split; [apply N2Nat.id|].
  apply in_seq. lia.
Qed.

Lemma pad2_digits (n : N) :
  n < 100 -> pad 2 n = [digit (n / 10); digit (n mod 10)].
Proof.
  intros H. apply eqb_eq.
  apply (check_below
           (fun n => JsString.eqb (pad 2 n) [digit (n / 10); digit (n mod 10)])
           100); [vm_compute; reflexivity | exact H].
Qed.

Lemma pad4_digits (n : N) :
  n < 10000 ->
  pad 4 n = [ digit (n / 1000); digit ((n / 100) mod 10);
              digit ((n / 10) mod 10); digit (n mod 10) ].
Proof.
  intros H. apply eqb_eq.
  apply (check_below
           (fun n => JsString.eqb (pad 4 n)
                       [ digit (n / 1000); digit ((n / 100) mod 10);
                         digit ((n / 10) mod 10); digit (n mod 10) ])
           10000); [vm_compute; reflexivity | exact H].
Qed.

Lemma format_DD_MM_YYYY_shape (t : DateTime) :
  day t < 100 -> month t < 100 -> year t < 10000 ->
  format_DD_MM_YYYY t = ddmmyyyy t.
Proof.
  intros Hd Hm Hy. unfold format_DD_MM_YYYY.
  now rewrite (pad2_digits _ Hd), (pad2_digits _ Hm), (pad4_digits _ Hy).
Qed.

Lemma rows_with_keys (ts : jsstring) (payload : Submission) :
  participants payload <> [] ->
  rows (addSubmission ts payload (mkWorksheet sheetTitle submissionColumns []))
  = map (fun p => submissionCells ts payload ++ participantCells p)
      (participants payload).
Proof.
  intros Hne. rewrite addSubmission_with_keys.
  destruct (participants payload); [congruence | reflexivity].
Qed.

(** C4. Whatever the request body holds, the participants of the
    normalized record are numbered 1, 2, ..., N by their place in the
    input array, and the body rows of the document's participant table
    show these numbers in the first column. The rows [appendToExcel] makes
    carry them under the key of the participant-number column only on a
    sheet that has its keys; the sheet it reads from the file has none, so
    no row and no ordinal reaches the log: the file holds the data rows it
    held before. *)
Theorem idx_is_position (number : Type) (numberToString : number -> jsstring)
  (t1 t2 : DateTime) (b : value number) (s : Submission) (fs : FileSystem) :
  sanitizeSubmission numberToString t1 b = Ok s ->
  map idx (participants s) = positions (List.length (participants s))
  /\ (forall arr, getProp b (utf16 "participants") = Ok (VArray arr) ->
                  List.length (participants s) = List.length arr)
  /\ (participants s <> [] ->
      map (fun r => nth 0 r []) (participantTableTexts (buildDocx s))
        = map ofN (positions (List.length (participants s))))
  /\ (participants s <> [] ->
      map (fun r => nth 8 r Blank)
        (rows (addSubmission (format_timestamp t2) s
                 (mkWorksheet sheetTitle submissionColumns [])))
      = map Num (positions (List.length (participants s))))
  /\ (usable fs ->
      exists fs',
        appendToExcel t2 s fs = Ok fs' /\ logRows fs' = logRows fs).
Proof.
  intros H.
  destruct (sanitizeSubmission_idx _ _ _ _ _ H) as [Hidx Hlen].
  split; [exact Hidx|]. split; [exact Hlen|]. split; [|split].
  - intros Hne. rewrite (buildDocx_texts s Hne), <- Hidx.
    rewrite !map_map. now apply map_ext.
  - intros Hne. rewrite (rows_with_keys _ _ Hne), <- Hidx.
    rewrite !map_map. now apply map_ext.
  - apply appendToExcel_log.
Qed.

(** C6. When the [date] of the request body is absent, [null] or a blank
    string, the date of the normalized record is the current date as
    DD.MM.YYYY: two digits of the day, two of the month and four of the
    year, separated by dots. When it is a string that is not blank, the
    date is that string trimmed. The date is shown as it is after
    "г. Мытищи, " in the document. The rows [appendToExcel] makes carry it
    under the key of the form-date column only on a sheet that has its
    keys; the sheet it reads from the file has none, so the date does not
    reach the log: the file holds the data rows it held before. *)
Theorem date_defaults_to_today (number : Type)
  (numberToString : number -> jsstring) (now t2 : DateTime)
  (b : value number) (s : Submission) (fs : FileSystem) :
  sanitizeSubmission numberToString now b = Ok s ->
  ((getProp b (utf16 "date") = Ok VUndefined
    \/ getProp b (utf16 "date") = Ok VNull
    \/ exists x, getProp b (utf16 "date") = Ok (VString x) /\ trim x = []) ->
   date s = format_DD_MM_YYYY now)
  /\ (forall x, getProp b (utf16 "date") = Ok (VString x) -> trim x <> [] ->
                date s = trim x)
  /\ (day now < 100 -> month now < 100 -> year now < 10000 ->
      format_DD_MM_YYYY now = ddmmyyyy now)
  /\ nth 3 (paragraphTexts (children (buildDocx s))) []
     = utf16 "г. Мытищи, " ++ date s
  /\ Forall (fun r => nth 1 r Blank = Text (date s))
       (rows (addSubmission (format_timestamp t2) s
                (mkWorksheet sheetTitle submissionColumns [])))
  /\ (usable fs ->
      exists fs',
        appendToExcel t2 s fs = Ok fs' /\ logRows fs' = logRows fs).
Proof.
  intros H. apply sanitizeSubmission_inv in H.
  destruct H as ((d & Hd & Hdate) & _).
  split; [|split; [|split; [|split; [|split]]]].
  - intros Hmissing.
    assert (E : pickProp numberToString b "date" = Ok []).
    { destruct Hmissing as [Hm | [Hm | (x & Hx & Hblank)]].
      - apply pickProp_missing. now left.
      - apply pickProp_missing. now right.
      - rewrite <- Hblank. now apply pickProp_string. }
    rewrite E in Hd. injection Hd as <-. exact Hdate.
  - intros x Hx Hne.
    rewrite (pickProp_string _ _ _ _ _ Hx) in Hd. injection Hd as <-.
    rewrite Hdate. destruct (trim x); [congruence | reflexivity].
  - apply format_DD_MM_YYYY_shape.
  - simpl. now rewrite app_nil_r.
  - rewrite addSubmission_with_keys. cbn [app].
    destruct (participants s) as [|p ps]; [repeat constructor|].
    apply Forall_forall. intros r Hr.
    apply in_map_iff in Hr as (q & <- & _). reflexivity.
  - apply appendToExcel_log.
Qed.

(* ===================================================================== *)
(** ** The statements on sample requests *)
(* ===================================================================== *)

Example sanitize_sample :
  sanitizeSubmission ofN sampleClock sampleBody = Ok samplePayload.
Proof. reflexivity. Qed.

Example submit_sample :
  let '(w, r) := submit ofN (mkConfig [] []) accepting sampleClock sampleClock
                   sampleBody (mkWorld NoFile []) in
  r = JsonOk
  /\ file w = freshLog
  /\ logRows (file w) = []
  /\ map subject (outbox w) = [utf16 "Заявка: Звезда"]
  /\ map (fun m => map filename (attachments m)) (outbox w)
     = [[utf16 "Заявка_Звезда.docx"]]
  /\ map (fun m => map (fun a => participantTableTexts (buffer a))
                     (attachments m)) (outbox w)
     = [[[[utf16 "1"; utf16 "Петрова А."; utf16 "2012"; []; []; []]]]].
Proof. vm_compute. repeat split. Qed.

Lemma appendToExcel_adds_no_row_witness :
  exists fs',
    appendToExcel sampleClock samplePayload NoFile = Ok fs'
    /\ logRows fs' = [].
Proof.
  destruct (appendToExcel_adds_no_row sampleClock samplePayload NoFile)
    as [H _]; [discriminate|].
  exact H.
Defined.

Lemma idx_is_position_witness :
  exists s,
    sanitizeSubmission ofN sampleClock numberedBody = Ok s
    /\ map idx (participants s) = [1; 2; 3]
    /\ map (fun r => nth 0 r []) (participantTableTexts (buildDocx s))
       = [utf16 "1"; utf16 "2"; utf16 "3"]
    /\ exists fs',
         appendToExcel sampleClock s NoFile = Ok fs' /\ logRows fs' = [].
Proof.
  eexists. split; [reflexivity|].
  destruct (idx_is_position N ofN sampleClock sampleClock numberedBody _
              NoFile eq_refl) as (H1 & _ & H3 & _ & H5).
  split; [exact H1|]. split; [apply H3; discriminate|].
  apply H5. discriminate.
Defined.

Lemma date_defaults_to_today_witness :
  exists s,
    sanitizeSubmission ofN sampleClock sampleBody = Ok s
    /\ date s = utf16 "12.10.2025"
    /\ (exists fs',
          appendToExcel sampleClock s NoFile = Ok fs' /\ logRows fs' = [])
    /\ exists s',
         sanitizeSubmission ofN sampleClock numberedBody = Ok s'
         /\ date s' = utf16 "01.02.2026".
Proof.
  eexists. split; [reflexivity|].
  destruct (date_defaults_to_today N ofN sampleClock sampleClock sampleBody _
              NoFile eq_refl) as (H1 & _ & H3 & _ & _ & H6).
  split; [|split].
  - rewrite H1 by (left; reflexivity).
    rewrite H3 by reflexivity. reflexivity.
  - apply H6. discriminate.
  - eexists. split; [reflexivity|].
    destruct (date_defaults_to_today N ofN sampleClock sampleClock
                numberedBody _ NoFile eq_refl) as (_ & H2 & _).
    apply (H2 (utf16 " 01.02.2026 ")); [reflexivity | discriminate].
Defined.

(* ===================================================================== *)
(** ** Further properties of the normalizer *)
(* ===================================================================== *)

Lemma bind_Throw (A B : Type) (c : result A) (k : A -> result B) (e : Error) :
  bind c k = Throw e -> c = Throw e \/ exists a, c = Ok a /\ k a = Throw e.
Proof. destruct c as [a|e']; simpl; [eauto | intros [= ->]; auto]. Qed.

Ltac throw_inv H :=
  let a := fresh "x" in
  let E := fresh "E" in
  apply bind_Throw in H as [H | (a & E & H)].

Section ThrowFacts.
Variable number : Type.
Variable numberToString : number -> jsstring.

Lemma pickProp_TypeError (o : value number) (k : string) (e : Error) :
  pickProp numberToString o k = Throw e -> e = TypeError.
Proof.
  unfold pickProp. intros H. throw_inv H.
  - destruct o; simpl in H; try discriminate; try congruence.
    destruct (lookup _ _); discriminate.
  - pose proof (pick_convertible number numberToString x) as Hp.
    destruct (convertible x); [destruct Hp as [s Hs]|]; congruence.
Qed.

Lemma sanitizeParticipant_TypeError (p : value number) (i : N) (e : Error) :
  sanitizeParticipant numberToString p i = Throw e -> e = TypeError.
Proof.
  unfold sanitizeParticipant. intros H.
  repeat (throw_inv H; [now apply pickProp_TypeError in H|]).
  discriminate.
Qed.

Lemma mapParticipants_TypeError (arr : list (value number)) (i : N)
  (e : Error) :
  mapParticipants numberToString i arr = Throw e -> e = TypeError.
Proof.
  revert i. induction arr as [|p arr IH]; intros i; simpl; [discriminate|].
  intros H. throw_inv H; [now apply sanitizeParticipant_TypeError in H|].
  throw_inv H; [now apply IH in H | discriminate].
Qed.

Lemma sanitizeSubmission_TypeError (now : DateTime) (b : value number)
  (e : Error) :
  sanitizeSubmission numberToString now b = Throw e -> e = TypeError.
Proof.
  unfold sanitizeSubmission. intros H.
  repeat (throw_inv H; [now apply pickProp_TypeError in H|]).
  throw_inv H.
  - destruct b; simpl in H; try discriminate; try congruence.
    destruct (lookup _ _); discriminate.
  - throw_inv H; [|discriminate].
    destruct x6; try discriminate.
    now apply mapParticipants_TypeError in H.
Qed.
End ThrowFacts.

(** X1. [sanitizeSubmission] returns a record exactly on the bodies of
    [bodyOk]: the body is not [null] or [undefined], none of its seven
    fields and of the five fields of an entry of the participants array
    is (or holds, through arrays) an object with an own [toString], and no
    entry of that array is [null] or [undefined]. On every other body it
    throws a [TypeError]. *)
Theorem sanitizeSubmission_accepts (number : Type)
  (numberToString : number -> jsstring) (now : DateTime) (b : value number) :
  (bodyOk b = true <-> exists s, sanitizeSubmission numberToString now b = Ok s)
  /\ (bodyOk b = false
      <-> sanitizeSubmission numberToString now b = Throw TypeError).
Proof.
  pose proof (sanitizeSubmission_ok number numberToString now b) as H.
  destruct (bodyOk b).
  - destruct H as [s H]. rewrite H. repeat split; eauto; discriminate.
  - destruct H as [e H].
    pose proof (sanitizeSubmission_TypeError _ _ _ _ _ H) as ->.
    rewrite H. repeat split; try discriminate.
    intros [s Hs]. discriminate.
Qed.

Lemma digits_all (u : Decimal.uint) : Forall isDigit (digits u).
Proof.
  induction u; simpl; constructor; try assumption; unfold isDigit; lia.
Qed.

Lemma digits_nonempty (u : Decimal.uint) : u <> Decimal.Nil -> digits u <> [].
Proof. destruct u; simpl; congruence. Qed.

Lemma ofN_digits (n : N) : ofN n <> [] /\ Forall isDigit (ofN n).
Proof.
  split; [|apply digits_all].
  apply digits_nonempty. destruct n as [|p]; [discriminate|].
  apply DecimalPos.Unsigned.to_uint_nonnil.
Qed.

Lemma pad_digits (len : nat) (n : N) :
  pad len n <> [] /\ Forall isDigit (pad len n).
Proof.
  destruct (ofN_digits n) as [Hne Hall]. unfold pad, padStart0. split.
  - destruct (ofN n); [congruence|]. now destruct (repeat _ _).
  - apply Forall_app. split; [|exact Hall].
    apply Forall_forall. intros c Hc. apply repeat_spec in Hc. subst c.
    unfold isDigit. lia.
Qed.

Lemma isDigit_not_space (c : N) : isDigit c -> isSpace c = false.
Proof.
  unfold isDigit. intros [H1 H2].
  assert (E : c = 48 \/ c = 49 \/ c = 50 \/ c = 51 \/ c = 52 \/ c = 53
              \/ c = 54 \/ c = 55 \/ c = 56 \/ c = 57) by lia.
  repeat (destruct E as [-> | E]; [reflexivity|]). now subst c.
Qed.

Lemma startsIn_app (cls : N -> bool) (a b : jsstring) :
  a <> [] -> startsIn cls (a ++ b) = startsIn cls a.
Proof. destruct a; [congruence | reflexivity]. Qed.

Lemma endsIn_app (cls : N -> bool) (a b : jsstring) :
  b <> [] -> endsIn cls (a ++ b) = endsIn cls b.
Proof.
  intros Hb. unfold endsIn. rewrite rev_app_distr. apply startsIn_app.
  intros E. apply Hb. apply (f_equal (@rev N)) in E.
  now rewrite rev_involutive in E.
Qed.

Lemma digits_trimmed (x : jsstring) :
  x <> [] -> Forall isDigit x ->
  startsIn isSpace x = false /\ endsIn isSpace x = false.
Proof.
  intros Hne Hall. split.
  - destruct x as [|c t]; [congruence|]. simpl.
    apply isDigit_not_space. now inversion Hall.
  - unfold endsIn. apply Forall_rev in Hall.
    destruct (rev x) as [|c t] eqn:E.
    + apply (f_equal (@rev N)) in E. rewrite rev_involutive in E.
      simpl in E. congruence.
    + simpl. apply isDigit_not_space. now inversion Hall.
Qed.

Lemma format_DD_MM_YYYY_trimmed (t : DateTime) :
  format_DD_MM_YYYY t <> [] /\ trimmed (format_DD_MM_YYYY t).
Proof.
  destruct (pad_digits 2 (day t)) as [D1 D2].
  destruct (pad_digits 4 (year t)) as [Y1 Y2].
  unfold format_DD_MM_YYYY. split.
  - destruct (pad 2 (day t)); [congruence | discriminate].
  - split.
    + rewrite startsIn_app by exact D1. now apply digits_trimmed.
    + rewrite !app_assoc. rewrite endsIn_app by exact Y1.
      now apply digits_trimmed.
Qed.

Section CanonicalFacts.
Variable number : Type.
Variable numberToString : number -> jsstring.

Lemma sanitizeSubmission_normal (now : DateTime) (b : value number)
  (s : Submission) :
  sanitizeSubmission numberToString now b = Ok s -> canonical s.
Proof.
  intros H.
  destruct (sanitizeSubmission_fields _ _ _ _ _ H)
    as (H1 & H2 & H3 & H4 & H5 & H6 & H7 & _).
  destruct (sanitizeSubmission_idx _ _ _ _ _ H) as [Hidx _].
  apply sanitizeSubmission_inv in H as ((d & Hd & Hdate) & _).
  apply pickProp_trimmed in Hd.
  destruct (format_DD_MM_YYYY_trimmed now) as [F1 F2].
  assert (Hdt : date s <> [] /\ trimmed (date s)).
  { rewrite Hdate. destruct d; simpl; [auto | split; [discriminate | auto]]. }
  unfold canonical. tauto.
Qed.

(** X2. A record returned by [sanitizeSubmission] is in normal form: its
    date is not empty, the date and the six other fields have no white
    space at either end, so have the five fields of every participant, and
    the participants are numbered 1, 2, ... in order. *)
Theorem sanitizeSubmission_canonical (now : DateTime) (b : value number)
  (s : Submission) :
  sanitizeSubmission numberToString now b = Ok s -> canonical s.
Proof.
  intros H.
  destruct (sanitizeSubmission_fields _ _ _ _ _ H)
    as (H1 & H2 & H3 & H4 & H5 & H6 & H7 & _).
  destruct (sanitizeSubmission_idx _ _ _ _ _ H) as [Hidx _].
  apply sanitizeSubmission_inv in H as ((d & Hd & Hdate) & _).
  apply pickProp_trimmed in Hd.
  destruct (format_DD_MM_YYYY_trimmed now) as [F1 F2].
  assert (Hdt : date s <> [] /\ trimmed (date s)).
  { rewrite Hdate. destruct d; simpl; [auto | split; [discriminate | auto]]. }
  unfold canonical. tauto.
Qed.

(** X3. The participants of the returned record are the entries of the
    [participants] array in the same order, and each field of a
    participant is [pick] of that field of its entry. *)
Theorem sanitizeSubmission_entries (now : DateTime) (b : value number)
  (s : Submission) (arr : list (value number)) :
  sanitizeSubmission numberToString now b = Ok s ->
  getProp b (utf16 "participants") = Ok (VArray arr) ->
  Forall2
    (fun p q =>
       pickProp numberToString p "name" = Ok (name q)
       /\ pickProp numberToString p "birthYear" = Ok (birthYear q)
       /\ pickProp numberToString p "hasRank" = Ok (hasRank q)
       /\ pickProp numberToString p "performingRank" = Ok (performingRank q)
       /\ pickProp numberToString p "medicalVisa" = Ok (medicalVisa q))
    arr (participants s).
Proof.
  intros H Harr. apply sanitizeSubmission_inv in H.
  destruct H as (_ & _ & _ & _ & _ & _ & _ & ps & Hps & Hmap).
  rewrite Harr in Hps. injection Hps as <-.
  apply mapParticipants_inv in Hmap as [Hall _].
  eapply Forall2_impl; [|exact Hall].
  intros p q [j Hq]. apply sanitizeParticipant_inv in Hq. tauto.
Qed.
End CanonicalFacts.

Lemma sanitizeSubmission_canonical_witness : canonical samplePayload.
Proof.
  apply (sanitizeSubmission_canonical N ofN sampleClock sampleBody).
  reflexivity.
Defined.

Lemma sanitizeSubmission_entries_witness :
  Forall2
    (fun p q =>
       pickProp ofN p "name" = Ok (name q)
       /\ pickProp ofN p "birthYear" = Ok (birthYear q)
       /\ pickProp ofN p "hasRank" = Ok (hasRank q)
       /\ pickProp ofN p "performingRank" = Ok (performingRank q)
       /\ pickProp ofN p "medicalVisa" = Ok (medicalVisa q))
    [ VObject [ (utf16 "name", VString (utf16 "Петрова А."));
                (utf16 "birthYear", VString (utf16 "2012")) ] ]
    (participants samplePayload).
Proof.
  apply (sanitizeSubmission_entries N ofN sampleClock sampleBody
           samplePayload); reflexivity.
Defined.

Section Renormalize.
Variable number : Type.
Variable numberToString : number -> jsstring.
Variable fromN : N -> number.

Lemma sanitizeParticipant_value (q : Participant) (i : N) :
  trimmedParticipant q ->
  idx q = i + 1 ->
  sanitizeParticipant numberToString (participantValue fromN q) i = Ok q.
Proof.
  intros (T1 & T2 & T3 & T4 & T5) Hi.
  change (sanitizeParticipant numberToString (participantValue fromN q) i)
    with (Ok (mkParticipant (i + 1) (trim (name q)) (trim (birthYear q))
                (trim (hasRank q)) (trim (performingRank q))
                (trim (medicalVisa q)))).
  rewrite !trim_fixed by assumption. rewrite <- Hi. now destruct q.
Qed.

Lemma mapParticipants_value (ps : list Participant) (i : N) :
  Forall trimmedParticipant ps ->
  map idx ps = map (fun k => i + N.of_nat k) (seq 1 (List.length ps)) ->
  mapParticipants numberToString i (map (participantValue fromN) ps) = Ok ps.
Proof.
  revert i. induction ps as [|q ps IH]; intros i Hall Hidx; [reflexivity|].
  inversion Hall as [|? ? Hq Hps]; subst.
  cbn [map List.length seq] in Hidx. injection Hidx as Hi Hrest.
  cbn [map mapParticipants].
  rewrite sanitizeParticipant_value by (assumption || lia).
  cbn [bind]. rewrite IH; [reflexivity | assumption |].
  rewrite Hrest, <- (seq_shift (List.length ps) 1), map_map.
  apply map_ext. intros k. lia.
Qed.

Lemma canonical_fixed (now : DateTime) (s : Submission) :
  canonical s ->
  sanitizeSubmission numberToString now (submissionValue fromN s) = Ok s.
Proof.
  intros (D0 & D1 & T1 & T2 & T3 & T4 & T5 & T6 & Hall & Hidx).
  change (sanitizeSubmission numberToString now (submissionValue fromN s))
    with (participants' <-
            mapParticipants numberToString 0
              (map (participantValue fromN) (participants s)) ;;
          Ok (mkSubmission (orElse (trim (date s)) (format_DD_MM_YYYY now))
                (trim (city s)) (trim (club s)) (trim (contacts s))
                (trim (coach s)) (trim (judge s)) (trim (judgeCategory s))
                participants')).
  rewrite mapParticipants_value; [|exact Hall|].
  - cbn [bind]. rewrite !trim_fixed by assumption.
    destruct s as [d c cl co ch j jc ps]. simpl in *.
    destruct d; [congruence | reflexivity].
  - rewrite Hidx. unfold positions. apply map_ext. intros k. lia.
Qed.

(** X4. Normalizing is idempotent: the record [sanitizeSubmission]
    returns, given to [sanitizeSubmission] again at any later time, comes
    back unchanged. *)
Theorem sanitizeSubmission_idempotent (now later : DateTime)
  (b : value number) (s : Submission) :
  sanitizeSubmission numberToString now b = Ok s ->
  sanitizeSubmission numberToString later (submissionValue fromN s) = Ok s.
Proof.
  intros H. apply canonical_fixed.
  now apply (sanitizeSubmission_normal _ _ _ _ _ H).
Qed.
End Renormalize.

Lemma sanitizeSubmission_idempotent_witness :
  sanitizeSubmission ofN (mkDateTime 2030 1 1 0 0 0)
    (submissionValue (fun n => n) samplePayload)
  = Ok samplePayload.
Proof.
  apply (sanitizeSubmission_idempotent N ofN (fun n => n) sampleClock
           (mkDateTime 2030 1 1 0 0 0) sampleBody samplePayload).
  reflexivity.
Defined.

(* ===================================================================== *)
(** ** Further properties of file names *)
(* ===================================================================== *)

Lemma replace_length (cls : N -> bool) (rep s : jsstring) :
  (List.length rep <= 1)%nat ->
  (List.length (replaceRuns cls rep s) <= List.length s)%nat
  /\ (List.length (afterMatch cls rep s) <= List.length s)%nat.
Proof.
  intros Hrep. induction s as [|c t [IH1 IH2]]; simpl; [lia|].
  destruct (cls c); simpl; rewrite ?length_app; lia.
Qed.

Lemma trim_length (s : jsstring) :
  (List.length (trim s) <= List.length s)%nat.
Proof.
  destruct (trim_middle s) as (pre & suf & E & _).
  rewrite E at 2. rewrite !length_app. lia.
Qed.

(** X5. A sanitized file name holds no unsafe character (so no line
    break), its only white space is single U+0020 between other
    characters, and it is never longer than the name given. *)
Theorem fileSafe_result (s : jsstring) :
  avoids isUnsafe (fileSafe s)
  /\ collapsed (fileSafe s) = true
  /\ trimmed (fileSafe s)
  /\ (List.length (fileSafe s) <= List.length s)%nat.
Proof.
  destruct (fileSafe_shape s) as (H1 & H2 & H3).
  repeat split; try assumption; try apply H3.
  unfold fileSafe.
  pose proof (trim_length
                (replaceRuns isSpace (utf16 " ")
                   (replaceRuns isUnsafe (utf16 "_") s))) as L1.
  destruct (replace_length isSpace (utf16 " ")
              (replaceRuns isUnsafe (utf16 "_") s)) as [L2 _]; [simpl; lia|].
  destruct (replace_length isUnsafe (utf16 "_") s) as [L3 _]; [simpl; lia|].
  lia.
Qed.

Lemma trimEnd_nonempty (c : N) (t : jsstring) :
  isSpace c = false -> trimEnd (c :: t) <> [].
Proof.
  intros Hc. simpl. destruct (trimEnd t); [rewrite Hc|]; discriminate.
Qed.

Lemma fileSafe_nonempty (x : jsstring) :
  x <> [] -> startsIn isSpace x = false -> fileSafe x <> [].
Proof.
  destruct x as [|c t]; [congruence|]. simpl. intros _ Hc.
  unfold fileSafe, trim, trimStart.
  assert (E : exists d y, replaceRuns isUnsafe (utf16 "_") (c :: t) = d :: y
                          /\ isSpace d = false).
  { simpl. destruct (isUnsafe c); eauto. }
  destruct E as (d & y & -> & Hd).
  cbn [replaceRuns]. rewrite Hd. cbn [dropWhile]. rewrite Hd.
  now apply trimEnd_nonempty.
Qed.

(** X6. The name of the document file holds no unsafe character; for a
    club name without white space at its ends (as in every normalized
    record) the part between "Заявка_" and ".docx" is never empty. *)
Theorem docxFileName_safe (payload : Submission) :
  avoids isUnsafe (docxFileName payload)
  /\ (trimmed (club payload) ->
      exists mid,
        docxFileName payload = utf16 "Заявка_" ++ mid ++ utf16 ".docx"
        /\ mid <> [] /\ avoids isUnsafe mid).
Proof.
  destruct (fileSafe_shape (orElse (club payload) (utf16 "Заявка")))
    as (H1 & _ & _).
  split.
  - unfold docxFileName, avoids. rewrite !Forall_app.
    repeat split; [repeat constructor | exact H1 | repeat constructor].
  - intros [Hs _]. eexists. split; [reflexivity|]. split; [|exact H1].
    apply fileSafe_nonempty; destruct (club payload); try discriminate;
      try reflexivity; exact Hs.
Qed.

Lemma docxFileName_safe_witness :
  exists mid,
    docxFileName samplePayload = utf16 "Заявка_" ++ mid ++ utf16 ".docx"
    /\ mid <> [] /\ avoids isUnsafe mid.
Proof.
  apply (docxFileName_safe samplePayload).
  split; reflexivity.
Defined.

(* ===================================================================== *)
(** ** Further properties of the roster log *)
(* ===================================================================== *)

Lemma getWorksheet_persist (n : jsstring) (wb : Workbook) :
  getWorksheet n (persist wb) = option_map persistSheet (getWorksheet n wb).
Proof.
  induction wb as [|w wb IH]; simpl; [reflexivity|].
  destruct (JsString.eqb (sheetName w) n); [reflexivity | exact IH].
Qed.

Lemma ensureSheet_present (n : jsstring) (wb : Workbook) (ws : Worksheet) :
  getWorksheet n wb = Some ws -> ensureSheet n wb = wb.
Proof.
  unfold ensureSheet. induction wb as [|w wb IH]; simpl; [discriminate|].
  destruct (JsString.eqb (sheetName w) n); [reflexivity|].
  intros Hg. now rewrite (IH Hg).
Qed.

Lemma ensureSheet_absent (n : jsstring) (wb : Workbook) :
  getWorksheet n wb = None -> ensureSheet n wb = wb ++ [mkWorksheet n [] []].
Proof.
  unfold ensureSheet. induction wb as [|w wb IH]; simpl; [reflexivity|].
  destruct (JsString.eqb (sheetName w) n); [discriminate|].
  intros Hg. now rewrite (IH Hg).
Qed.

(** X7. [appendToExcel] throws on a file that is not a readable workbook
    and leaves it. Whenever it returns on a workbook file that has the
    sheet of submissions, the file holds the workbook exactly as it was
    stored: every sheet, the sheet of submissions included, with the rows
    it had. *)
Theorem appendToExcel_keeps (now : DateTime) (payload : Submission)
  (wb : Workbook) (ws : Worksheet) (fs' : FileSystem) :
  appendToExcel now payload OtherFile = Throw IOError
  /\ (getWorksheet sheetTitle wb = Some ws ->
      appendToExcel now payload (XlsxFile wb) = Ok fs' ->
      fs' = XlsxFile (persist wb)
      /\ readFile fs' = readFile (XlsxFile wb)).
Proof.
  split; [reflexivity|]. intros Hws. rewrite appendToExcel_eq.
  intros [= <-].
  assert (Hp : getWorksheet sheetTitle (persist wb) = Some (persistSheet ws))
    by now rewrite getWorksheet_persist, Hws.
  rewrite (ensureSheet_present _ _ _ Hp). split; [reflexivity|].
  simpl. now rewrite persist_twice.
Qed.

Lemma appendToExcel_keeps_witness :
  XlsxFile [ mkWorksheet (utf16 "Other") [] [[Text (utf16 "x")]];
             mkWorksheet sheetTitle [] [[Text (utf16 "y")]] ]
  = XlsxFile (persist [ mkWorksheet (utf16 "Other") [] [[Text (utf16 "x")]];
                        mkWorksheet sheetTitle [] [[Text (utf16 "y")]] ])
  /\ readFile
       (XlsxFile [ mkWorksheet (utf16 "Other") [] [[Text (utf16 "x")]];
                   mkWorksheet sheetTitle [] [[Text (utf16 "y")]] ])
     = readFile
         (XlsxFile [ mkWorksheet (utf16 "Other") [] [[Text (utf16 "x")]];
                     mkWorksheet sheetTitle [] [[Text (utf16 "y")]] ]).
Proof.
  apply (proj2 (appendToExcel_keeps sampleClock samplePayload
                  [ mkWorksheet (utf16 "Other") [] [[Text (utf16 "x")]];
                    mkWorksheet sheetTitle [] [[Text (utf16 "y")]] ]
                  (mkWorksheet sheetTitle [] [[Text (utf16 "y")]])
                  (XlsxFile [ mkWorksheet (utf16 "Other") [] [[Text (utf16 "x")]];
                              mkWorksheet sheetTitle [] [[Text (utf16 "y")]] ])));
    reflexivity.
Defined.

(** X9. When the workbook file has no sheet of submissions, whenever
    [appendToExcel] returns the file holds the sheets it had, as stored,
    followed by a sheet of submissions without columns and without rows:
    the fields of the submission are not written. *)
Theorem appendToExcel_without_sheet (now : DateTime) (payload : Submission)
  (wb : Workbook) (fs' : FileSystem) :
  getWorksheet sheetTitle wb = None ->
  appendToExcel now payload (XlsxFile wb) = Ok fs' ->
  fs' = XlsxFile (persist wb ++ [mkWorksheet sheetTitle [] []])
  /\ logRows fs' = [].
Proof.
  intros Hnone. rewrite appendToExcel_eq. intros [= <-].
  assert (Hp : getWorksheet sheetTitle (persist wb) = None)
    by now rewrite getWorksheet_persist, Hnone.
  split; [now rewrite (ensureSheet_absent _ _ Hp)|].
  rewrite logRows_ensureSheet. unfold logRows. now rewrite Hp.
Qed.

Lemma appendToExcel_without_sheet_witness :
  XlsxFile (persist [mkWorksheet (utf16 "Other") [] []]
            ++ [mkWorksheet sheetTitle [] []])
  = XlsxFile [mkWorksheet (utf16 "Other") [] []; mkWorksheet sheetTitle [] []]
  /\ logRows
       (XlsxFile (persist [mkWorksheet (utf16 "Other") [] []]
                  ++ [mkWorksheet sheetTitle [] []]))
     = [].
Proof.
  split; [reflexivity|].
  apply (appendToExcel_without_sheet sampleClock samplePayload
           [mkWorksheet (utf16 "Other") [] []]
           (XlsxFile (persist [mkWorksheet (utf16 "Other") [] []]
                      ++ [mkWorksheet sheetTitle [] []])));
    reflexivity.
Defined.

(* ===================================================================== *)
(** ** Further properties of the routes *)
(* ===================================================================== *)

Lemma no_surrogate_encodes (s : jsstring) :
  Forall (fun c => c < 55296) s -> exists r, encodeURIComponent s = Ok r.
Proof.
  induction 1 as [|c t Hc _ [r IH]]; simpl; [eauto|].
  rewrite IH. simpl.
  destruct (isUnreserved c); [eauto|].
  unfold isLowSurrogate, isHighSurrogate.
  destruct (N.leb_spec 56320 c); [lia|].
  destruct (N.leb_spec 55296 c); [lia|]. simpl. eauto.
Qed.

Lemma fileSafe_Forall (P : N -> Prop) (s : jsstring) :
  P 95 -> P 32 -> Forall P s -> Forall P (fileSafe s).
Proof.
  intros H95 H32 Hs. unfold fileSafe.
  apply trim_Forall. apply replace_Forall; [repeat constructor; exact H32|].
  intros c Hc _. revert c Hc. apply Forall_forall.
  apply replace_Forall; [repeat constructor; exact H95|].
  intros c Hc _. revert c Hc. now apply Forall_forall.
Qed.

Lemma docxFileName_encodes (payload : Submission) :
  Forall (fun c => c < 55296) (club payload) ->
  exists r, encodeURIComponent (docxFileName payload) = Ok r.
Proof.
  intros H. apply no_surrogate_encodes. unfold docxFileName.
  rewrite !Forall_app. split; [repeat constructor|].
  split; [|repeat constructor].
  apply fileSafe_Forall; try reflexivity.
  destruct (club payload); [repeat constructor | exact H].
Qed.

Section RouteFacts.
Variable number : Type.
Variable numberToString : number -> jsstring.
Variable cfg : Config.
Variable sendMail : Transport.

Lemma submit_Ok (t1 t2 : DateTime) (b : value number) (w : World)
  (s : Submission) (fs' : FileSystem) :
  sanitizeSubmission numberToString t1 b = Ok s ->
  appendToExcel t2 s (file w) = Ok fs' ->
  sendMail (emailDocx cfg s (buildDocx s)) = Ok tt ->
  submit numberToString cfg sendMail t1 t2 b w
  = (mkWorld fs' (outbox w ++ [emailDocx cfg s (buildDocx s)]), JsonOk).
Proof.
  intros H1 H2 H3. unfold submit. now rewrite H1, H2, H3.
Qed.

(** X10. The handler of [POST /submit], given the parsed body, answers
    with status 500 in three cases: when [sanitizeSubmission] throws, with
    the log and the outgoing mail as they were; when the log file cannot be read, likewise; and when the
    transport rejects the message, with the log file already rewritten and
    no message recorded. When none of these fails it answers ok and the
    transport has taken exactly one message after the earlier ones, from
    [FROM_EMAIL] to [WORK_EMAIL], with the document of the normalized
    record as its only attachment. *)
Theorem submit_effects (t1 t2 : DateTime) (b : value number) (w : World) :
  (forall e,
     sanitizeSubmission numberToString t1 b = Throw e ->
     submit numberToString cfg sendMail t1 t2 b w = (w, submitFailure))
  /\ (forall s,
        sanitizeSubmission numberToString t1 b = Ok s ->
        file w = OtherFile ->
        submit numberToString cfg sendMail t1 t2 b w = (w, submitFailure))
  /\ (forall s fs' e,
        sanitizeSubmission numberToString t1 b = Ok s ->
        appendToExcel t2 s (file w) = Ok fs' ->
        sendMail (emailDocx cfg s (buildDocx s)) = Throw e ->
        submit numberToString cfg sendMail t1 t2 b w
        = (mkWorld fs' (outbox w), submitFailure))
  /\ (forall s fs',
        sanitizeSubmission numberToString t1 b = Ok s ->
        appendToExcel t2 s (file w) = Ok fs' ->
        sendMail (emailDocx cfg s (buildDocx s)) = Ok tt ->
        exists m,
          submit numberToString cfg sendMail t1 t2 b w
          = (mkWorld fs' (outbox w ++ [m]), JsonOk)
          /\ from m = FROM_EMAIL cfg /\ to m = WORK_EMAIL cfg
          /\ map buffer (attachments m) = [buildDocx s]
          /\ map contentType (attachments m) = [docxType]).
Proof.
  split; [|split; [|split]].
  - intros e H. unfold submit. now rewrite H.
  - intros s H Hf. unfold submit. rewrite H, Hf. reflexivity.
  - intros s fs' e H1 H2 H3. unfold submit. now rewrite H1, H2, H3.
  - intros s fs' H1 H2 H3. exists (emailDocx cfg s (buildDocx s)).
    split; [now apply submit_Ok|]. repeat split.
Qed.

End RouteFacts.

Lemma submit_effects_witness :
  (exists m,
     submit ofN (mkConfig (utf16 "a@b") (utf16 "c@d")) accepting sampleClock
       sampleClock sampleBody (mkWorld NoFile [])
     = (mkWorld freshLog ([] ++ [m]), JsonOk)
     /\ to m = utf16 "c@d")
  /\ submit ofN (mkConfig (utf16 "a@b") (utf16 "c@d")) rejecting sampleClock
       sampleClock sampleBody (mkWorld NoFile [])
     = (mkWorld freshLog [], submitFailure)
  /\ submit ofN (mkConfig (utf16 "a@b") (utf16 "c@d")) accepting sampleClock
       sampleClock sampleBody (mkWorld OtherFile [])
     = (mkWorld OtherFile [], submitFailure).
Proof.
  split; [|split].
  - destruct (submit_effects N ofN (mkConfig (utf16 "a@b") (utf16 "c@d"))
                accepting sampleClock sampleClock sampleBody
                (mkWorld NoFile [])) as (_ & _ & _ & H).
    destruct (H samplePayload freshLog eq_refl eq_refl eq_refl)
      as (m & H1 & _ & H2 & _).
    exists m. split; assumption.
  - apply (submit_effects N ofN (mkConfig (utf16 "a@b") (utf16 "c@d"))
             rejecting sampleClock sampleClock sampleBody
             (mkWorld NoFile [])) with (s := samplePayload) (e := IOError);
      reflexivity.
  - apply (submit_effects N ofN (mkConfig (utf16 "a@b") (utf16 "c@d"))
             accepting sampleClock sampleClock sampleBody
             (mkWorld OtherFile [])) with (s := samplePayload);
      reflexivity.
Defined.


(* ===================================================================== *)
(** ** Further properties of the document *)
(* ===================================================================== *)

Lemma cell_plain (txt : jsstring) (opts : CellOpts) : plainCell (cell txt opts).
Proof. unfold plainCell, cell. simpl. eauto. Qed.

Lemma participantRow_fits (p : option Participant) (i : N) :
  map cellWidth (participantRow p i) = [900; 3500; 1400; 1700; 1900; 1500]
  /\ Forall plainCell (participantRow p i).
Proof.
  split; [reflexivity|]. unfold participantRow.
  repeat constructor; apply cell_plain.
Qed.

Lemma participantRows_fit (src : list (option Participant)) (i : N) :
  Forall (fun r => map cellWidth r = [900; 3500; 1400; 1700; 1900; 1500]
                   /\ Forall plainCell r)
    (mapi participantRow i src).
Proof.
  revert i. induction src as [|p src IH]; intros i; simpl; constructor.
  - apply participantRow_fits.
  - apply IH.
Qed.

(** X13. Every document has exactly two tables, the table of five
    attributes and the participant table. In both, each row has one cell
    per column, as wide as the table declares the column (5500 twice; 900,
    3500, 1400, 1700, 1900, 1500), and each cell is one paragraph of one
    run in Times New Roman. The participant table always has a header row
    and at least one body row. *)
Theorem buildDocx_layout (data : Submission) :
  exists info parts,
    tablesOf (children (buildDocx data)) = [info; parts]
    /\ columnWidths info = [5500; 5500]
    /\ List.length (tableRows info) = 5%nat
    /\ tableFits info
    /\ columnWidths parts = [900; 3500; 1400; 1700; 1900; 1500]
    /\ tableFits parts
    /\ tableRows parts = participantHeader :: participantRows (buildDocx data)
    /\ participantRows (buildDocx data) <> [].
Proof.
  exists (infoTable data), (participantTable data).
  split; [reflexivity|]. split; [reflexivity|]. split; [reflexivity|].
  split.
  { unfold tableFits, infoTable, infoRow. simpl tableRows.
    repeat constructor; apply cell_plain. }
  split; [reflexivity|]. split.
  { unfold tableFits, participantTable. simpl tableRows. constructor.
    - split; [reflexivity|]. unfold participantHeader.
      repeat constructor; apply cell_plain.
    - apply participantRows_fit. }
  split; [reflexivity|].
  rewrite participantRows_eq. unfold rowSource.
  destruct (participants data); discriminate.
Qed.

(* ===================================================================== *)
(** ** Further properties of timestamps *)
(* ===================================================================== *)

Lemma format_timestamp_text (t : DateTime) :
  clockInRange t -> format_timestamp t = timestampText t.
Proof.
  intros (Hy & Hm & Hd & Hh & Hmi & Hs). unfold format_timestamp.
  rewrite (pad4_digits (year t)) by exact Hy.
  rewrite (pad2_digits (month t)), (pad2_digits (day t)),
    (pad2_digits (hour t)), (pad2_digits (minute t)),
    (pad2_digits (second t)) by lia.
  reflexivity.
Qed.

Lemma ltb_same_head (c : N) (x y : jsstring) :
  ltb (c :: x) (c :: y) = ltb x y.
Proof. simpl. now rewrite N.ltb_irrefl, N.eqb_refl. Qed.

Lemma two_digits_order (a b : N) (r : bool) :
  a < 100 -> b < 100 ->
  (digit (a / 10) <? digit (b / 10))
  || ((digit (a / 10) =? digit (b / 10))
      && ((digit (a mod 10) <? digit (b mod 10))
          || ((digit (a mod 10) =? digit (b mod 10)) && r)))
  = (a <? b) || ((a =? b) && r).
Proof.
  intros Ha Hb.
  pose (lhs := fun a b r =>
          (digit (a / 10) <? digit (b / 10))
          || ((digit (a / 10) =? digit (b / 10))
              && ((digit (a mod 10) <? digit (b mod 10))
                  || ((digit (a mod 10) =? digit (b mod 10)) && r)))).
  pose (rhs := fun a b r => (a <? b) || ((a =? b) && r)).
  assert (H : forall a, a < N.of_nat 100 ->
              (fun a => forallb
                          (fun b => Bool.eqb (lhs a b true) (rhs a b true)
                                    && Bool.eqb (lhs a b false) (rhs a b false))
                          (map N.of_nat (seq 0 100))) a = true).
  { apply check_below. vm_compute. reflexivity. }
  specialize (H a Ha). cbv beta in H.
  apply (check_below
           (fun b => Bool.eqb (lhs a b true) (rhs a b true)
                     && Bool.eqb (lhs a b false) (rhs a b false)) 100 H) in Hb.
  apply andb_true_iff in Hb as [H1 H2].
  apply Bool.eqb_prop in H1, H2. destruct r; assumption.
Qed.

Lemma four_digits_split (y : N) :
  y < 10000 ->
  y / 1000 = (y / 100) / 10 /\ (y / 10) mod 10 = (y mod 100) / 10
  /\ y mod 10 = (y mod 100) mod 10.
Proof.
  intros Hy.
  apply (check_below
           (fun y => (y / 1000 =? (y / 100) / 10)
                     && (((y / 10) mod 10 =? (y mod 100) / 10)
                         && (y mod 10 =? (y mod 100) mod 10)))
           10000) in Hy; [|vm_compute; reflexivity].
  apply andb_true_iff in Hy as [H1 H2].
  apply andb_true_iff in H2 as [H2 H3].
  apply N.eqb_eq in H1, H2, H3. auto.
Qed.

Lemma hundreds_order (a b : N) (r : bool) :
  (a / 100 <? b / 100)
  || ((a / 100 =? b / 100)
      && ((a mod 100 <? b mod 100) || ((a mod 100 =? b mod 100) && r)))
  = (a <? b) || ((a =? b) && r).
Proof.
  pose proof (N.div_mod a 100 ltac:(discriminate)) as Ea.
  pose proof (N.div_mod b 100 ltac:(discriminate)) as Eb.
  pose proof (N.mod_lt a 100 ltac:(discriminate)) as La.
  pose proof (N.mod_lt b 100 ltac:(discriminate)) as Lb.
  generalize dependent (a / 100). generalize dependent (a mod 100).
  generalize dependent (b / 100). generalize dependent (b mod 100).
  intros rb Lb qb Eb ra La qa Ea.
  destruct (N.ltb_spec qa qb), (N.eqb_spec qa qb), (N.ltb_spec ra rb),
    (N.eqb_spec ra rb), (N.ltb_spec a b), (N.eqb_spec a b);
    simpl; try reflexivity; try lia; destruct r; try reflexivity; lia.
Qed.

Lemma ltb_two_digits (a b : N) (x y : jsstring) :
  a < 100 -> b < 100 ->
  ltb (digit (a / 10) :: digit (a mod 10) :: x)
      (digit (b / 10) :: digit (b mod 10) :: y)
  = (a <? b) || ((a =? b) && ltb x y).
Proof.
  intros Ha Hb. cbn [ltb]. now apply two_digits_order.
Qed.

Lemma ltb_four_digits (a b : N) (x y : jsstring) :
  a < 10000 -> b < 10000 ->
  ltb (digit (a / 1000) :: digit ((a / 100) mod 10)
         :: digit ((a / 10) mod 10) :: digit (a mod 10) :: x)
      (digit (b / 1000) :: digit ((b / 100) mod 10)
         :: digit ((b / 10) mod 10) :: digit (b mod 10) :: y)
  = (a <? b) || ((a =? b) && ltb x y).
Proof.
  intros Ha Hb.
  destruct (four_digits_split a Ha) as (-> & -> & ->).
  destruct (four_digits_split b Hb) as (-> & -> & ->).
  assert (Ha1 : a / 100 < 100)
    by (apply N.Div0.div_lt_upper_bound; lia).
  assert (Hb1 : b / 100 < 100)
    by (apply N.Div0.div_lt_upper_bound; lia).
  pose proof (N.mod_lt a 100 ltac:(discriminate)) as La.
  pose proof (N.mod_lt b 100 ltac:(discriminate)) as Lb.
  rewrite ltb_two_digits by assumption.
  rewrite ltb_two_digits by assumption.
  apply hundreds_order.
Qed.

(** X14. For readings of the clock with calendar fields in range and a
    year below 10000, the timestamp of a log row is the 19 characters
    YYYY-MM-DD HH:mm:ss, and comparing two timestamps as strings gives the
    order of the two readings in time. *)
Theorem format_timestamp_sortable (t1 t2 : DateTime) :
  clockInRange t1 -> clockInRange t2 ->
  format_timestamp t1 = timestampText t1
  /\ List.length (format_timestamp t1) = 19%nat
  /\ ltb (format_timestamp t1) (format_timestamp t2) = earlier t1 t2.
Proof.
  intros H1 H2.
  rewrite !format_timestamp_text by assumption.
  split; [reflexivity|]. split; [reflexivity|].
  destruct H1 as (Hy1 & Hm1 & Hd1 & Hh1 & Hmi1 & Hs1).
  destruct H2 as (Hy2 & Hm2 & Hd2 & Hh2 & Hmi2 & Hs2).
  unfold timestampText, earlier.
  rewrite ltb_four_digits by assumption. rewrite ltb_same_head.
  rewrite ltb_two_digits by lia. rewrite ltb_same_head.
  rewrite ltb_two_digits by lia. rewrite ltb_same_head.
  rewrite ltb_two_digits by lia. rewrite ltb_same_head.
  rewrite ltb_two_digits by lia. rewrite ltb_same_head.
  rewrite ltb_two_digits by lia. cbn [ltb].
  now rewrite andb_false_r, orb_false_r.
Qed.

Lemma format_timestamp_sortable_witness :
  ltb (format_timestamp sampleClock)
      (format_timestamp (mkDateTime 2025 10 12 10 0 0))
  = true.
Proof.
  apply (format_timestamp_sortable sampleClock (mkDateTime 2025 10 12 10 0 0));
    unfold clockInRange; simpl; lia.
Defined.

(* ===================================================================== *)
(** ** Properties of the page script *)
(* ===================================================================== *)

Section PageTable.
Import Page.

Lemma mapi_app (A B : Type) (f : A -> N -> B) (l1 l2 : list A) (i : N) :
  mapi f i (l1 ++ l2)
  = mapi f i l1 ++ mapi f (i + N.of_nat (List.length l1)) l2.
Proof.
  revert i. induction l1 as [|x l1 IH]; intros i; simpl.
  - now rewrite N.add_0_r.
  - rewrite IH. do 3 f_equal. lia.
Qed.

Lemma renumber_idxText_from (rows : list Tr) (i : N) :
  map idxText (mapi (fun tr k => mkTr (ofN (k + 1)) (inputs tr)) i rows)
  = map (fun k => ofN (i + N.of_nat k)) (seq 1 (List.length rows)).
Proof.
  revert i. induction rows as [|tr rows IH]; intros i; [reflexivity|].
  cbn [mapi map List.length seq idxText]. f_equal.
  rewrite IH, <- (seq_shift (List.length rows) 1), map_map.
  apply map_ext. intros k. f_equal. lia.
Qed.

Lemma renumber_idxText (rows : list Tr) :
  map idxText (renumber rows) = map ofN (positions (List.length rows)).
Proof.
  unfold renumber, positions. rewrite renumber_idxText_from, map_map.
  reflexivity.
Qed.

Lemma renumber_inputs (rows : list Tr) :
  map inputs (renumber rows) = map inputs rows.
Proof.
  unfold renumber. generalize 0.
  induction rows as [|tr rows IH]; intros i; [reflexivity|].
  cbn [mapi map inputs]. now rewrite IH.
Qed.

Lemma renumber_length (rows : list Tr) :
  List.length (renumber rows) = List.length rows.
Proof. apply mapi_length. Qed.

Lemma renumber_five (rows : list Tr) :
  Forall (fun tr => List.length (inputs tr) = 5%nat) rows ->
  Forall (fun tr => List.length (inputs tr) = 5%nat) (renumber rows).
Proof.
  intros H.
  apply (Forall_map inputs (fun l => List.length l = 5%nat)).
  rewrite renumber_inputs. now apply Forall_map.
Qed.

Lemma renumber_numbered (rows : list Tr) (pg : Page) :
  rows <> [] ->
  Forall (fun tr => List.length (inputs tr) = 5%nat) rows ->
  numbered (setTbody (renumber rows) pg).
Proof.
  intros Hne H5. unfold numbered. cbn [tbody setTbody]. split; [|split].
  - intros E. apply (f_equal (@List.length Tr)) in E.
    rewrite renumber_length in E. now destruct rows.
  - now rewrite renumber_idxText, renumber_length.
  - now apply renumber_five.
Qed.

Lemma mapi_fixed (rows : list Tr) (i : N) :
  map idxText rows
  = map (fun k => ofN (i + N.of_nat k)) (seq 1 (List.length rows)) ->
  mapi (fun tr k => mkTr (ofN (k + 1)) (inputs tr)) i rows = rows.
Proof.
  revert i. induction rows as [|tr rows IH]; intros i; [reflexivity|].
  cbn [mapi map List.length seq]. intros H. injection H as H1 H2.
  f_equal.
  - destruct tr as [t ins]. cbn [idxText inputs] in *.
    rewrite H1. reflexivity.
  - apply IH. rewrite H2, <- (seq_shift (List.length rows) 1), map_map.
    apply map_ext. intros k. f_equal. lia.
Qed.

Lemma renumber_fixed (rows : list Tr) :
  map idxText rows = map ofN (positions (List.length rows)) ->
  renumber rows = rows.
Proof.
  intros H. apply mapi_fixed. rewrite H. unfold positions.
  now rewrite map_map.
Qed.

Lemma setTbody_same (pg : Page) : setTbody (tbody pg) pg = pg.
Proof. now destruct pg. Qed.

Lemma setTbody_twice (r1 r2 : list Tr) (pg : Page) :
  setTbody r2 (setTbody r1 pg) = setTbody r2 pg.
Proof. reflexivity. Qed.

Lemma addRow_numbered (pg : Page) :
  Forall (fun tr => List.length (inputs tr) = 5%nat) (tbody pg) ->
  numbered (addRow pg).
Proof.
  intros H. unfold addRow. apply renumber_numbered.
  - now destruct (tbody pg).
  - apply Forall_app. split; [exact H | repeat constructor].
Qed.

Lemma removeRow_numbered (pg : Page) : numbered pg -> numbered (removeRow pg).
Proof.
  intros (Hne & Hidx & H5). unfold removeRow.
  destruct (PeanoNat.Nat.ltb_spec 1 (List.length (tbody pg))) as [Hlen|Hlen];
    [|now repeat split].
  assert (E : tbody pg = removelast (tbody pg) ++ [last (tbody pg) (mkTr [] [])])
    by now apply app_removelast_last.
  apply renumber_numbered.
  - intros E0. rewrite E0 in E. rewrite E in Hlen. simpl in Hlen. lia.
  - rewrite E in H5. now apply Forall_app in H5 as [H5 _].
Qed.

Lemma reachable_numbered (pg : Page) : reachable pg -> numbered pg.
Proof.
  induction 1 as [|pg pg' _ IH Hstep].
  - apply addRow_numbered. constructor.
  - destruct Hstep as [pg|pg|pg pg' Hi Hn].
    + apply addRow_numbered. apply IH.
    + now apply removeRow_numbered.
    + destruct IH as (Hne & Hidx & H5). split; [|split].
      * intros E. rewrite E in Hi. destruct (tbody pg); [congruence|].
        discriminate.
      * rewrite Hi, Hidx. do 2 f_equal.
        apply (f_equal (@List.length jsstring)) in Hi.
        now rewrite !length_map in Hi.
      * apply (Forall_map (fun tr => List.length (inputs tr))
                 (fun n => n = 5%nat)).
        rewrite Hn. now apply Forall_map.
Qed.


(** X16. On a page whose rows are numbered, removing a row right after
    adding one gives the page back as it was. *)
Theorem removeRow_addRow (pg : Page) :
  numbered pg -> removeRow (addRow pg) = pg.
Proof.
  intros (Hne & Hidx & _). unfold removeRow, addRow.
  cbn [tbody setTbody]. rewrite renumber_length, length_app.
  destruct (PeanoNat.Nat.ltb_spec 1 (List.length (tbody pg) + List.length
                              [mkTr [] [[]; []; []; []; []]])) as [_|Hlen].
  - rewrite setTbody_twice. unfold renumber at 2. rewrite mapi_app.
    cbn [mapi]. rewrite removelast_last.
    fold (renumber (tbody pg)). rewrite (renumber_fixed _ Hidx).
    rewrite (renumber_fixed _ Hidx). apply setTbody_same.
  - simpl in Hlen. destruct (tbody pg); [congruence | simpl in Hlen; lia].
Qed.
End PageTable.


Lemma removeRow_addRow_witness :
  Page.removeRow (Page.addRow Page.loaded) = Page.loaded.
Proof.
  apply removeRow_addRow.
  repeat split; try discriminate. repeat constructor.
Defined.

Section PageRequests.
Import Page.
Variable number : Type.
Variable numberToString : number -> jsstring.
Variable cfg : Config.

Lemma nthValue_pick (i : nat) (vals : list jsstring) :
  pick numberToString (nthValue i (map trim vals))
  = Ok (trim (nth i vals [])).
Proof.
  unfold nthValue. revert i. induction vals as [|v vals IH]; intros [|i];
    simpl; try reflexivity.
  - now rewrite trim_idempotent.
  - apply IH.
Qed.

Lemma sanitizeParticipant_row (tr : Tr) (i : N) :
  sanitizeParticipant numberToString (collectRow tr) i
  = Ok (rowParticipant tr i).
Proof.
  change (sanitizeParticipant numberToString (collectRow tr) i)
    with (name <- pick numberToString (nthValue 0 (map trim (inputs tr))) ;;
          birthYear <- pick numberToString
                         (nthValue 1 (map trim (inputs tr))) ;;
          hasRank <- pick numberToString (nthValue 2 (map trim (inputs tr))) ;;
          performingRank <- pick numberToString
                              (nthValue 3 (map trim (inputs tr))) ;;
          medicalVisa <- pick numberToString
                           (nthValue 4 (map trim (inputs tr))) ;;
          Ok (mkParticipant (i + 1) name birthYear hasRank performingRank
                medicalVisa)).
  now rewrite !nthValue_pick.
Qed.

Lemma mapParticipants_rows (rows : list Tr) (i : N) :
  mapParticipants numberToString i (map collectRow rows)
  = Ok (mapi rowParticipant i rows).
Proof.
  revert i. induction rows as [|tr rows IH]; intros i; [reflexivity|].
  cbn [map mapParticipants mapi].
  now rewrite sanitizeParticipant_row, IH.
Qed.

Lemma sanitizeSubmission_collect (now : DateTime) (pg : Page) :
  sanitizeSubmission numberToString now (collect pg) = Ok (pageRecord pg).
Proof.
  change (sanitizeSubmission numberToString now (collect pg))
    with (ps <- mapParticipants numberToString 0 (map collectRow (tbody pg)) ;;
          Ok (mkSubmission (orElse (trim dateDisplay) (format_DD_MM_YYYY now))
                (trim (trim (orElse (city pg) [])))
                (trim (trim (orElse (club pg) [])))
                (trim (trim (orElse (contacts pg) [])))
                (trim (trim (orElse (coach pg) [])))
                (trim (trim (orElse (judge pg) [])))
                (trim (trim (orElse (judgeCategory pg) [])))
                ps)).
  rewrite mapParticipants_rows. cbn [bind].
  now rewrite !trim_idempotent, !orElse_empty.
Qed.

(** X17. Every payload the page collects is accepted by
    [sanitizeSubmission], at any time. The record has one participant per
    row of the table, in order, numbered from 1, with the trimmed values
    of the row's inputs; its date is the fixed text of the page,
    "12 октября 2025 г.", never the current date. *)
Theorem collect_accepted (now : DateTime) (pg : Page) :
  sanitizeSubmission numberToString now (collect pg) = Ok (pageRecord pg)
  /\ date (pageRecord pg) = utf16 "12 октября 2025 г."
  /\ List.length (participants (pageRecord pg)) = List.length (tbody pg)
  /\ map idx (participants (pageRecord pg))
     = positions (List.length (tbody pg))
  /\ map (fun q => name q) (participants (pageRecord pg))
     = map (fun tr => trim (nth 0 (inputs tr) [])) (tbody pg).
Proof.
  split; [apply sanitizeSubmission_collect|]. split; [reflexivity|].
  cbn [participants pageRecord]. split; [apply mapi_length|].
  pose proof (sanitizeSubmission_idx number numberToString now (collect pg)
                (pageRecord pg) (sanitizeSubmission_collect now pg))
    as [Hidx _].
  cbn [participants pageRecord] in Hidx. rewrite mapi_length in Hidx.
  split; [exact Hidx|]. clear Hidx.
  generalize 0. induction (tbody pg) as [|tr rows IH]; intros i;
    [reflexivity|].
  cbn [mapi map]. f_equal. apply IH.
Qed.
End PageRequests.

Section PageSubmit.
Import Page.
Variable number : Type.
Variable numberToString : number -> jsstring.
Variable cfg : Config.
Variable sendMail : Transport.

End PageSubmit.


Section PageFileName.

Ltac decide_tests :=
  repeat match goal with
         | |- context [?a =? ?b] => destruct (N.eqb_spec a b); try lia
         | |- context [?a <=? ?b] => destruct (N.leb_spec a b); try lia
         end;
  try reflexivity; try discriminate.

Lemma plain_char (c : N) :
  1024 <= c <= 1279 \/ c = 46 \/ c = 45 ->
  isSpace c = false /\ isUnsafe c = false /\ Page.isKept c = true
  /\ Page.isLetterS c = false.
Proof.
  intros H. unfold isSpace, isUnsafe, Page.isKept, Page.isLetterS.
  repeat split; decide_tests.
Qed.

Lemma kept_char_safe (c : N) :
  isUnsafe (if Page.isKept c then c else 95) = false.
Proof.
  destruct (Page.isKept c) eqn:K; [|reflexivity].
  revert K. unfold Page.isKept, isUnsafe. decide_tests.
Qed.

Lemma plainName_facts (s : jsstring) :
  Page.plainName s ->
  avoids isSpace s /\ avoids isUnsafe s /\ avoids Page.isLetterS s
  /\ map (fun c => if Page.isKept c then c else 95) s = s.
Proof.
  induction 1 as [|c t Hc _ (I1 & I2 & I3 & I4)].
  - repeat split; constructor.
  - destruct (plain_char c Hc) as (C1 & C2 & C3 & C4).
    repeat split; try (constructor; assumption).
    simpl. now rewrite C3, I4.
Qed.

Lemma fileNameFromClub_plain (pg : Page.Page) :
  Page.plainName (Page.club pg) ->
  Page.fileNameFromClub pg = docxFileName (Page.pageRecord pg).
Proof.
  unfold Page.fileNameFromClub, docxFileName.
  cbn [club Page.pageRecord].
  destruct (Page.club pg) as [|c t]; [reflexivity|].
  intros H. cbn [orElse].
  destruct (plainName_facts _ H) as (H1 & H2 & H3 & H4).
  destruct (avoids_space_shape _ H1) as [T C].
  rewrite (trim_fixed _ T). cbn [orElse].
  rewrite H4, (replaceRuns_avoids _ _ _ H3), (trim_fixed _ T).
  now rewrite (fileSafe_fixed _ H2 C T).
Qed.

Lemma fileNameFromClub_encodes (pg : Page.Page) :
  Page.plainName (Page.club pg) ->
  exists r, encodeURIComponent (Page.fileNameFromClub pg) = Ok r.
Proof.
  intros H. rewrite (fileNameFromClub_plain pg H).
  apply docxFileName_encodes. cbn [club Page.pageRecord].
  apply trim_Forall. revert H. apply Forall_impl. intros c Hc. lia.
Qed.

Variable number : Type.
Variable numberToString : number -> jsstring.


(** X20. The name the page computes for the saved file never holds a
    character that is unsafe in a file name. *)
Theorem fileNameFromClub_safe (pg : Page.Page) :
  avoids isUnsafe (Page.fileNameFromClub pg).
Proof.
  unfold Page.fileNameFromClub, avoids. rewrite !Forall_app.
  split; [repeat constructor|]. split; [|repeat constructor].
  apply trim_Forall. apply replace_Forall; [repeat constructor|].
  intros c Hc _. apply in_map_iff in Hc as (x & <- & _).
  apply kept_char_safe.
Qed.
End PageFileName.


(* ===================================================================== *)
(** ** Further properties: fixed points, mail and document *)
(* ===================================================================== *)

(** X21. The names [fileSafe] leaves unchanged are exactly those that hold
    no unsafe character, whose only white space is single U+0020 between
    other characters, and that have no white space at either end. *)
Theorem fileSafe_fixed_points (s : jsstring) :
  fileSafe s = s
  <-> avoids isUnsafe s /\ collapsed s = true /\ trimmed s.
Proof.
  split.
  - intros E. rewrite <- E. apply fileSafe_shape.
  - intros (H1 & H2 & H3). now apply fileSafe_fixed.
Qed.

Lemma cell_text (txt : jsstring) (opts : CellOpts) :
  cellText (cell txt opts) = txt.
Proof. unfold cellText, cell. simpl. apply app_nil_r. Qed.

(** X22. The mail and the document show the same values: the club, city,
    contacts, coach and judge cells of the document's table of attributes
    are the values the lines of the mail body show, a dash standing in the
    mail for an empty cell. The mail lists the coach before the contacts,
    the document the contacts before the coach. *)
Theorem mail_matches_document (cfg : Config) (payload : Submission)
  (buf : Document) :
  exists clubT cityT contactsT coachT judgeT,
    map (fun r => nth 1 (map cellText r) (utf16 "?"))
      (tableRows (hd (mkTable [] []) (tablesOf (children (buildDocx payload)))))
    = [clubT; cityT; contactsT; coachT; judgeT]
    /\ body (emailDocx cfg payload buf)
       = utf16 "Клуб/школа: " ++ orDash clubT ++ [10]
         ++ utf16 "Город: " ++ orDash cityT ++ [10]
         ++ utf16 "Тренер: " ++ orDash coachT ++ [10]
         ++ utf16 "Контакты: " ++ orDash contactsT ++ [10]
         ++ utf16 "Судья: " ++ orDash judgeT ++ [10]
         ++ utf16 "Участниц: "
         ++ ofN (N.of_nat (List.length (participants payload))).
Proof.
  exists (club payload), (city payload), (contacts payload), (coach payload),
    (judgeLine payload).
  split.
  - change (tablesOf (children (buildDocx payload)))
      with [infoTable payload; participantTable payload].
    cbn [hd infoTable tableRows map infoRow nth].
    now rewrite !cell_text, !orElse_empty.
  - unfold emailDocx, body, join. rewrite !orElse_dash.
    now rewrite <- !app_assoc.
Qed.

(* ===================================================================== *)
(** ** The further statements on sample requests *)
(* ===================================================================== *)

Lemma sanitizeSubmission_accepts_witness :
  (exists s, sanitizeSubmission ofN sampleClock sampleBody = Ok s)
  /\ sanitizeSubmission ofN sampleClock
       (VObject [(utf16 "participants", VArray [VNull])])
     = Throw TypeError.
Proof.
  split.
  - apply (sanitizeSubmission_accepts N ofN sampleClock sampleBody).
    reflexivity.
  - apply (sanitizeSubmission_accepts N ofN sampleClock
             (VObject [(utf16 "participants", VArray [VNull])])).
    reflexivity.
Defined.

Lemma fileSafe_fixed_points_witness :
  fileSafe (utf16 "Звезда Востока") = utf16 "Звезда Востока".
Proof.
  apply (fileSafe_fixed_points (utf16 "Звезда Востока")).
  split; [|split; [|split]]; try reflexivity.
  unfold avoids. simpl. repeat constructor.
Defined.
